(** * EthAudio controller ([python/ethaudio/api.py]): shallow embedding

    The module under study is the command engine of the audio controller:
    the helper functions [parse_int], [error] and [updated_val], the two
    runtimes [MockRt] and [RpiRt], and the class [EthAudioApi] with its
    status document and the operations [parse_cmd], [get_state],
    [set_power], [set_source] and [set_zone].

    Python is dynamically typed, so the arguments of the operations are
    modelled as values of a universal type [pyval], what [json.loads]
    produces: [None], booleans, integers, floats (as exact binary
    fractions, with the infinities and NaN), strings, lists and
    dictionaries.  [str] is taken never to raise: an integer prints at any
    size and the interpreter's recursion limit on nested containers is
    left out.  The status document is only
    ever written through [str], [bool] and [parse_int], so its entries are
    modelled as typed records; [get_state] renders them back as the
    dictionary the Python object holds.  Exceptions and the mutation of
    [self.status] are modelled by a state-and-exception monad. *)

From Stdlib Require Import ZArith Lia Ascii String.
From stdpp Require Import base list strings pretty.

Set Warnings "-register-all".

Local Open Scope string_scope.
Local Open Scope Z_scope.

(** ** Python values *)

(** A [float]: NaN, an infinity, a signed zero, or the finite non-zero
    value [(-1)^neg * m * 2^e]. *)
Inductive pyfloat : Type :=
| FNan
| FInf (neg : bool)
| FZero (neg : bool)
| FFinite (neg : bool) (m : positive) (e : Z).

Inductive pyval : Type :=
| PNone
| PBool (b : bool)
| PInt (z : Z)
| PFloat (f : pyfloat)
| PStr (s : string)
| PList (l : list pyval)
| PDict (d : list (string * pyval)).

(** A dictionary with string keys, in insertion order. *)
Definition dict : Type := list (string * pyval).

(** [d.get(k)]: the value bound to [k], if any. *)
Fixpoint dict_get (d : dict) (k : string) : option pyval :=
  match d with
  | [] => None
  | (k', v) :: d' => if String.eqb k' k then Some v else dict_get d' k
  end.

(** The exceptions the module can meet. *)
Inductive exn : Type :=
| KeyError (key : string)
| IndexError
| TypeError (msg : string)
| ValueError (msg : string)
| OverflowError (msg : string).

(** [str(e)] for an exception [e]; a [KeyError] prints the [repr] of its
    key, and every key used by the module is a plain identifier. *)
Definition str_exn (e : exn) : string :=
  match e with
  | KeyError key => "'" +:+ key +:+ "'"
  | IndexError => "list index out of range"
  | TypeError msg => msg
  | ValueError msg => msg
  | OverflowError msg => msg
  end.

(** Result of a computation that may raise. *)
Inductive res (A : Type) : Type :=
| Ok (a : A)
| Raise (e : exn).
Arguments Ok {A} a.
Arguments Raise {A} e.

(** The parts of the Python interpreter the module relies on and that are
    not fixed by the repository: [int] applied to a [str], the text of the
    exception [int] raises on a value it rejects, and [str] applied to a
    float, a list or a dictionary. *)
Class Builtins : Type := {
  int_of_str : string -> option Z;
  int_fail_text : pyval -> string;
  str_float : pyfloat -> string;
  str_container : pyval -> string
}.

(** A small instance used to run the model on concrete commands: signed
    decimal literals, and fixed texts.  The properties below are proved for
    every instance. *)
Definition digit_of_ascii (c : ascii) : option Z :=
  let n := Z.of_nat (nat_of_ascii c) in
  if (48 <=? n) && (n <=? 57) then Some (n - 48) else None.

Fixpoint digits_value (acc : Z) (s : string) : option Z :=
  match s with
  | EmptyString => Some acc
  | String c s' =>
      match digit_of_ascii c with
      | Some d => digits_value (10 * acc + d) s'
      | None => None
      end
  end.

Definition decimal_of_str (s : string) : option Z :=
  match s with
  | EmptyString => None
  | String "-"%char (String c s') => Z.opp <$> digits_value 0 (String c s')
  | String "+"%char (String c s') => digits_value 0 (String c s')
  | _ => digits_value 0 s
  end.

#[export] Instance decimal_builtins : Builtins := {|
  int_of_str := decimal_of_str;
  int_fail_text := fun _ => "int() rejected its argument";
  str_float := fun _ => "<float>";
  str_container := fun _ => "<container>"
|}.

(** The integer a float is equal to, if it is equal to one. *)
Definition float_as_int (f : pyfloat) : option Z :=
  match f with
  | FNan | FInf _ => None
  | FZero _ => Some 0
  | FFinite neg m e =>
      let sign := if neg then -1 else 1 in
      if 0 <=? e then Some (sign * (Z.pos m * 2 ^ e))
      else if Z.pos m mod 2 ^ (- e) =? 0 then Some (sign * (Z.pos m / 2 ^ (- e)))
      else None
  end.

(** [int(f)] for a finite float: the integral part, towards zero. *)
Definition float_trunc (neg : bool) (m : positive) (e : Z) : Z :=
  let sign := if neg then -1 else 1 in
  if 0 <=? e then sign * (Z.pos m * 2 ^ e)
  else sign * (Z.pos m / 2 ^ (- e)).

Section Helpers.
Context `{Builtins}.

(** [bool(v)]: Python truthiness. *)
Definition py_bool (v : pyval) : bool :=
  match v with
  | PNone => false
  | PBool b => b
  | PInt z => negb (z =? 0)
  | PFloat f => match f with FZero _ => false | _ => true end
  | PStr s => negb (String.eqb s "")
  | PList l => match l with [] => false | _ => true end
  | PDict d => match d with [] => false | _ => true end
  end.

(** [str(v)], which is also what ['{}'.format(v)] prints.  It is taken
    total: the conversion limit some interpreters put on very long
    integers and the recursion limit on deeply nested containers, at which
    [str] raises, are left out. *)
Definition py_str (v : pyval) : string :=
  match v with
  | PNone => "None"
  | PBool b => if b then "True" else "False"
  | PInt z => pretty z
  | PFloat f => str_float f
  | PStr s => s
  | PList _ | PDict _ => str_container v
  end.

(** [int(v)]. *)
Definition py_int (v : pyval) : res Z :=
  match v with
  | PBool b => Ok (Z.b2z b)
  | PInt z => Ok z
  | PFloat FNan => Raise (ValueError "cannot convert float NaN to integer")
  | PFloat (FInf _) => Raise (OverflowError "cannot convert float infinity to integer")
  | PFloat (FZero _) => Ok 0
  | PFloat (FFinite neg m e) => Ok (float_trunc neg m e)
  | PStr s =>
      match int_of_str s with
      | Some z => Ok z
      | None => Raise (ValueError (int_fail_text v))
      end
  | PNone | PList _ | PDict _ => Raise (TypeError (int_fail_text v))
  end.

(** [v == z] for an integer [z]: a [bool] compares as 0 or 1, a [float]
    by its exact value. *)
Definition py_eq_int (v : pyval) (z : Z) : bool :=
  match v with
  | PInt n => n =? z
  | PBool b => Z.b2z b =? z
  | PFloat f =>
      match float_as_int f with
      | Some n => n =? z
      | None => false
      end
  | _ => false
  end.

(** [v == s] for a string literal [s]. *)
Definition py_eq_str (v : pyval) (s : string) : bool :=
  match v with
  | PStr t => String.eqb t s
  | _ => false
  end.

(** [v is None]. *)
Definition is_None (v : pyval) : bool :=
  match v with
  | PNone => true
  | _ => false
  end.

(** The two shapes of [options] handed to [parse_int]: a list literal
    and a [range(lo, hi)]. *)
Inductive options : Type :=
| OList (l : list Z)
| ORange (lo hi : Z).

(** [n in options]. *)
Definition py_in (n : Z) (o : options) : bool :=
  match o with
  | OList l => existsb (Z.eqb n) l
  | ORange lo hi => (lo <=? n) && (n <? hi)
  end.

Fixpoint str_ints (l : list Z) : string :=
  match l with
  | [] => ""
  | [z] => pretty z
  | z :: l' => pretty z +:+ ", " +:+ str_ints l'
  end.

Definition str_options (o : options) : string :=
  match o with
  | OList l => "[" +:+ str_ints l +:+ "]"
  | ORange lo hi => "range(" +:+ pretty lo +:+ ", " +:+ pretty hi +:+ ")"
  end.

(** [parse_int(i, options)]: parse an integer into one of the given
    options. *)
Definition parse_int (i : pyval) (o : options) : res Z :=
  match py_int i with
  | Ok n =>
      if py_in n o then py_int i
      else Raise (ValueError (py_str i +:+ " is not in [" +:+ str_options o +:+ "]"))
  | Raise e => Raise e
  end.

(** [error(msg)]: wrap the error message into an error. *)
Definition error (msg : string) : pyval := PDict [("error", PStr msg)].

(** [updated_val(update, val)]: the potentially updated value, defaulting
    to the current value when the update is [None]. *)
Definition updated_val (update val : pyval) : pyval :=
  if is_None update then val else update.

End Helpers.

(** ** The status document *)

(** [status['power']]. *)
Record Power : Type := {
  p_audio_power : bool;
  p_usb_power : bool
}.

(** An element of [status['sources']]. *)
Record Source : Type := {
  s_id : Z;
  s_name : string;
  s_digital : bool
}.

(** An element of [status['zones']]. *)
Record Zone : Type := {
  z_id : Z;
  z_name : string;
  z_source_id : Z;
  z_mute : bool;
  z_stby : bool;
  z_disabled : bool;
  z_vol : Z
}.

(** An element of [status['groups']]. *)
Record Group : Type := {
  g_id : Z;
  g_name : string;
  g_zones : list Z
}.

Record Status : Type := {
  power : Power;
  sources : list Source;
  zones : list Zone;
  groups : list Group
}.

(** The status built by [EthAudioApi.__init__]. *)
Definition initial_status : Status := {|
  power := {| p_audio_power := false; p_usb_power := false |};
  sources := [
    {| s_id := 0; s_name := "Source 1"; s_digital := false |};
    {| s_id := 1; s_name := "Source 2"; s_digital := false |};
    {| s_id := 2; s_name := "Source 3"; s_digital := false |};
    {| s_id := 3; s_name := "Source 4"; s_digital := false |} ];
  zones := [
    {| z_id := 0; z_name := "Zone 1"; z_source_id := 0; z_mute := false; z_stby := false; z_disabled := false; z_vol := 0 |};
    {| z_id := 1; z_name := "Zone 2"; z_source_id := 0; z_mute := false; z_stby := false; z_disabled := false; z_vol := 0 |};
    {| z_id := 2; z_name := "Zone 3"; z_source_id := 0; z_mute := false; z_stby := false; z_disabled := false; z_vol := 0 |};
    {| z_id := 3; z_name := "Zone 4"; z_source_id := 0; z_mute := false; z_stby := false; z_disabled := false; z_vol := 0 |};
    {| z_id := 4; z_name := "Zone 5"; z_source_id := 0; z_mute := false; z_stby := false; z_disabled := false; z_vol := 0 |};
    {| z_id := 5; z_name := "Zone 6"; z_source_id := 0; z_mute := false; z_stby := false; z_disabled := false; z_vol := 0 |} ];
  groups := [
    {| g_id := 0; g_name := "Group 1"; g_zones := [0; 1; 2] |};
    {| g_id := 1; g_name := "Group 2"; g_zones := [2; 3; 4] |};
    {| g_id := 2; g_name := "Group 3"; g_zones := [5] |} ]
|}.

(** The dictionaries the Python object holds, as [get_state] returns
    them. *)
Definition power_doc (p : Power) : pyval :=
  PDict [("audio_power", PBool (p_audio_power p)); ("usb_power", PBool (p_usb_power p))].

Definition source_doc (s : Source) : pyval :=
  PDict [("id", PInt (s_id s)); ("name", PStr (s_name s)); ("digital", PBool (s_digital s))].

Definition zone_doc (z : Zone) : pyval :=
  PDict [("id", PInt (z_id z)); ("name", PStr (z_name z)); ("source_id", PInt (z_source_id z));
         ("mute", PBool (z_mute z)); ("stby", PBool (z_stby z)); ("disabled", PBool (z_disabled z));
         ("vol", PInt (z_vol z))].

Definition group_doc (g : Group) : pyval :=
  PDict [("id", PInt (g_id g)); ("name", PStr (g_name g)); ("zones", PList (PInt <$> g_zones g))].

Definition status_doc (st : Status) : pyval :=
  PDict [("power", power_doc (power st));
         ("sources", PList (source_doc <$> sources st));
         ("zones", PList (zone_doc <$> zones st));
         ("groups", PList (group_doc <$> groups st))].

(** Field assignments [d['key'] = v] on the entries. *)
Definition set_audio_power (b : bool) (p : Power) : Power :=
  {| p_audio_power := b; p_usb_power := p_usb_power p |}.
Definition set_usb_power (b : bool) (p : Power) : Power :=
  {| p_audio_power := p_audio_power p; p_usb_power := b |}.

Definition set_s_name (n : string) (s : Source) : Source :=
  {| s_id := s_id s; s_name := n; s_digital := s_digital s |}.
Definition set_digital (b : bool) (s : Source) : Source :=
  {| s_id := s_id s; s_name := s_name s; s_digital := b |}.

Definition set_z_name (n : string) (z : Zone) : Zone :=
  {| z_id := z_id z; z_name := n; z_source_id := z_source_id z; z_mute := z_mute z;
     z_stby := z_stby z; z_disabled := z_disabled z; z_vol := z_vol z |}.
Definition set_source_id (n : Z) (z : Zone) : Zone :=
  {| z_id := z_id z; z_name := z_name z; z_source_id := n; z_mute := z_mute z;
     z_stby := z_stby z; z_disabled := z_disabled z; z_vol := z_vol z |}.
Definition set_mute (b : bool) (z : Zone) : Zone :=
  {| z_id := z_id z; z_name := z_name z; z_source_id := z_source_id z; z_mute := b;
     z_stby := z_stby z; z_disabled := z_disabled z; z_vol := z_vol z |}.
Definition set_stby (b : bool) (z : Zone) : Zone :=
  {| z_id := z_id z; z_name := z_name z; z_source_id := z_source_id z; z_mute := z_mute z;
     z_stby := b; z_disabled := z_disabled z; z_vol := z_vol z |}.
Definition set_vol (n : Z) (z : Zone) : Zone :=
  {| z_id := z_id z; z_name := z_name z; z_source_id := z_source_id z; z_mute := z_mute z;
     z_stby := z_stby z; z_disabled := z_disabled z; z_vol := n |}.
Definition set_disabled (b : bool) (z : Zone) : Zone :=
  {| z_id := z_id z; z_name := z_name z; z_source_id := z_source_id z; z_mute := z_mute z;
     z_stby := z_stby z; z_disabled := b; z_vol := z_vol z |}.

Definition with_power (p : Power) (st : Status) : Status :=
  {| power := p; sources := sources st; zones := zones st; groups := groups st |}.
Definition with_sources (l : list Source) (st : Status) : Status :=
  {| power := power st; sources := l; zones := zones st; groups := groups st |}.
Definition with_zones (l : list Zone) (st : Status) : Status :=
  {| power := power st; sources := sources st; zones := l; groups := groups st |}.

(** ** Runtimes *)

(** The capability set the controller consumes.  A runtime is an object
    with its own state; each call answers [True] on success and [False] on
    hardware failure, as the docstrings of both runtimes put it, and does
    not raise. *)
Record Runtime : Type := {
  rt_state : Type;
  rt_set_power : bool -> bool -> rt_state -> bool * rt_state;
  rt_set_source : Z -> bool -> rt_state -> bool * rt_state;
  rt_set_zone : Z -> Z -> bool -> bool -> Z -> bool -> rt_state -> bool * rt_state
}.

(** [class MockRt]: pretends to be the runtime, but actually does nothing.
    [__init__] is [pass], so an instance has no attribute. *)
Module MockRt.
Definition state : Type := unit.
Definition init : state := tt.
Definition set_power (audio_on usb_on : bool) (self : state) : bool * state :=
  (true, self).
Definition set_source (id : Z) (digital : bool) (self : state) : bool * state :=
  (true, self).
Definition set_zone (id source_id : Z) (mute stby : bool) (vol : Z) (disabled : bool)
    (self : state) : bool * state :=
  (true, self).
Definition rt : Runtime := {|
  rt_state := state;
  rt_set_power := set_power;
  rt_set_source := set_source;
  rt_set_zone := set_zone
|}.
End MockRt.

(** [class RpiRt]: the actual runtime, whose three operations are still to
    be written and answer [False]. *)
Module RpiRt.
Definition state : Type := unit.
Definition init : state := tt.
Definition set_power (audio_on usb_on : bool) (self : state) : bool * state :=
  (false, self).
Definition set_source (id : Z) (digital : bool) (self : state) : bool * state :=
  (false, self).
Definition set_zone (id source_id : Z) (mute stby : bool) (vol : Z) (disabled : bool)
    (self : state) : bool * state :=
  (false, self).
Definition rt : Runtime := {|
  rt_state := state;
  rt_set_power := set_power;
  rt_set_source := set_source;
  rt_set_zone := set_zone
|}.
End RpiRt.

(** ** State and exceptions *)

(** A computation over a mutable object of type [S] that returns a value
    or raises; the object keeps the mutations made before a raise. *)
Definition M (S A : Type) : Type := S -> res A * S.

Definition ret {S A} (a : A) : M S A := fun self => (Ok a, self).

Definition raise {S A} (e : exn) : M S A := fun self => (Raise e, self).

Definition bind {S A B} (m : M S A) (k : A -> M S B) : M S B :=
  fun self =>
    match m self with
    | (Ok a, self') => k a self'
    | (Raise e, self') => (Raise e, self')
    end.

Notation "x <- m ;; k" := (bind m (fun x => k))
  (at level 100, m at next level, right associativity).
Notation "m ;;; k" := (bind m (fun _ => k))
  (at level 100, right associativity).

(** [try: m  except Exception as e: h e]. *)
Definition try_except {S A} (m : M S A) (h : exn -> M S A) : M S A :=
  fun self =>
    match m self with
    | (Ok a, self') => (Ok a, self')
    | (Raise e, self') => h e self'
    end.

(** Run a [try] block and hand its outcome to the code after it. *)
Definition attempt {S A} (m : M S A) : M S (res A) :=
  fun self => let '(r, self') := m self in (Ok r, self').

Definition gets {S A} (f : S -> A) : M S A := fun self => (Ok (f self), self).

Definition modify {S} (f : S -> S) : M S unit := fun self => (Ok tt, f self).

(** [for i, s in enumerate(l): if s['id'] == id: idx = i], started with
    [idx = None]. *)
Definition find_idx `{Builtins} {A} (get_id : A -> Z) (l : list A) (id : pyval) : option nat :=
  fold_left (fun idx '(i, s) => if py_eq_int id (get_id s) then Some i else idx)
            (imap pair l) None.

(** [cmd[key]]. *)
Definition getitem {S} (cmd : dict) (key : string) : M S pyval :=
  match dict_get cmd key with
  | Some v => ret v
  | None => raise (KeyError key)
  end.

(** ** The controller, [class EthAudioApi] *)

Section Controller.
Context `{Builtins} (R : Runtime).

(** The object: the runtime it was built over and its status. *)
Record EthAudioApi : Type := {
  _rt : rt_state R;
  status : Status
}.

(** [EthAudioApi(rt)]. *)
Definition new (rt : rt_state R) : EthAudioApi :=
  {| _rt := rt; status := initial_status |}.

Definition with_status (f : Status -> Status) (self : EthAudioApi) : EthAudioApi :=
  {| _rt := _rt self; status := f (status self) |}.

(** A call [self._rt.f(...)], tested for truth by the caller. *)
Definition call_rt (f : rt_state R -> bool * rt_state R) : M EthAudioApi bool :=
  fun self =>
    let '(ok, rt') := f (_rt self) in
    (Ok ok, {| _rt := rt'; status := status self |}).

(** [self.status['sources'][idx]]. *)
Definition source_at (idx : nat) : M EthAudioApi Source :=
  fun self =>
    match sources (status self) !! idx with
    | Some s => (Ok s, self)
    | None => (Raise IndexError, self)
    end.

(** [self.status['zones'][idx]]. *)
Definition zone_at (idx : nat) : M EthAudioApi Zone :=
  fun self =>
    match zones (status self) !! idx with
    | Some z => (Ok z, self)
    | None => (Raise IndexError, self)
    end.

(** [self.status['sources'][idx][key] = v], with [set] the assignment to
    [key]. *)
Definition assign_source (idx : nat) (set : Source -> Source) : M EthAudioApi unit :=
  s <- source_at idx;;
  modify (with_status (fun st => with_sources (<[idx := set s]> (sources st)) st)).

(** [self.status['zones'][idx][key] = v]. *)
Definition assign_zone (idx : nat) (set : Zone -> Zone) : M EthAudioApi unit :=
  z <- zone_at idx;;
  modify (with_status (fun st => with_zones (<[idx := set z]> (zones st)) st)).

(** [self.status['power'][key] = v]. *)
Definition assign_power (set : Power -> Power) : M EthAudioApi unit :=
  modify (with_status (fun st => with_power (set (power st)) st)).

(** The object after the entry at [idx] of its zones (resp. sources) has
    been replaced. *)
Definition put_zone (idx : nat) (z : Zone) (self : EthAudioApi) : EthAudioApi :=
  with_status (fun st => with_zones (<[idx := z]> (zones st)) st) self.

Definition put_source (idx : nat) (s : Source) (self : EthAudioApi) : EthAudioApi :=
  with_status (fun st => with_sources (<[idx := s]> (sources st)) st) self.

(** [get_state]: the system state. *)
Definition get_state : M EthAudioApi pyval :=
  gets (fun self => status_doc (status self)).

(** [set_power]: enable / disable the 9V audio power and 5V usb power. *)
Definition set_power (audio_power usb_power : pyval) : M EthAudioApi pyval :=
  p <- gets (fun self => power (status self));;
  let audio_power := updated_val audio_power (PBool (p_audio_power p)) in
  let usb_power := updated_val usb_power (PBool (p_usb_power p)) in
  ok <- call_rt (rt_set_power R (py_bool audio_power) (py_bool usb_power));;
  if ok then
    assign_power (set_audio_power (py_bool audio_power));;;
    assign_power (set_usb_power (py_bool usb_power));;;
    ret PNone
  else
    ret (error "failed to set power").

(** [set_source]: modify any of the 4 system sources. *)
Definition set_source (id name digital : pyval) : M EthAudioApi pyval :=
  srcs <- gets (fun self => sources (status self));;
  match find_idx s_id srcs id with
  | Some idx =>
      cur <- attempt (
        src <- source_at idx;;
        ret (updated_val name (PStr (s_name src)),
             updated_val digital (PBool (s_digital src))));;
      match cur with
      | Raise e =>
          ret (error ("failed to set source, error getting current state: " +:+ str_exn e))
      | Ok (name, digital) =>
          try_except (
            ok <- call_rt (rt_set_source R (Z.of_nat idx) (py_bool digital));;
            if ok then
              assign_source idx (set_s_name (py_str name));;;
              assign_source idx (set_digital (py_bool digital));;;
              ret PNone
            else
              ret (error "failed to set source"))
          (fun e => ret (error ("set source " +:+ str_exn e)))
      end
  | None =>
      ret (error ("set source: index " +:+ py_str PNone +:+ " out of bounds"))
  end.

(** [set_zone]: modify any zone. *)
Definition set_zone (id name source_id mute stby vol disabled : pyval) : M EthAudioApi pyval :=
  zs <- gets (fun self => zones (status self));;
  match find_idx z_id zs id with
  | Some idx =>
      cur <- attempt (
        z <- zone_at idx;;
        ret (updated_val name (PStr (z_name z)),
             updated_val source_id (PInt (z_source_id z)),
             updated_val mute (PBool (z_mute z)),
             updated_val stby (PBool (z_stby z)),
             updated_val vol (PInt (z_vol z)),
             updated_val disabled (PBool (z_disabled z))));;
      match cur with
      | Raise e =>
          ret (error ("failed to set zone, error getting current state: " +:+ str_exn e))
      | Ok (name, source_id, mute, stby, vol, disabled) =>
          try_except (
            sid <- (fun self => (parse_int source_id (OList [1; 2; 3; 4]), self));;
            vol <- (fun self => (parse_int vol (ORange (-79) 1), self));;
            ok <- call_rt (rt_set_zone R (Z.of_nat idx) sid (py_bool mute) (py_bool stby)
                                       vol (py_bool disabled));;
            if ok then
              assign_zone idx (set_z_name (py_str name));;;
              assign_zone idx (set_source_id sid);;;
              assign_zone idx (set_mute (py_bool mute));;;
              assign_zone idx (set_stby (py_bool stby));;;
              assign_zone idx (set_vol vol);;;
              assign_zone idx (set_disabled (py_bool disabled));;;
              ret PNone
            else
              ret (error "failed to set zone"))
          (fun e => ret (error ("set zone" +:+ str_exn e)))
      end
  | None =>
      ret (error ("set zone: index " +:+ py_str PNone +:+ " out of bounds"))
  end.

(** [parse_cmd]: process an individual command. *)
Definition parse_cmd (cmd : dict) : M EthAudioApi pyval :=
  try_except (
    command <- getitem cmd "command";;
    if is_None command then
      ret (error "No command specified")
    else if py_eq_str command "return_state" then
      ret PNone
    else if py_eq_str command "set_power" then
      audio_power <- getitem cmd "audio_power";;
      usb_power <- getitem cmd "usb_power";;
      set_power audio_power usb_power
    else if py_eq_str command "set_source" then
      id <- getitem cmd "id";;
      name <- getitem cmd "name";;
      digital <- getitem cmd "digital";;
      set_source id name digital
    else if py_eq_str command "set_zone" then
      id <- getitem cmd "id";;
      name <- getitem cmd "name";;
      source_id <- getitem cmd "source_id";;
      mute <- getitem cmd "mute";;
      stby <- getitem cmd "stby";;
      vol <- getitem cmd "vol";;
      disabled <- getitem cmd "disabled";;
      set_zone id name source_id mute stby vol disabled
    else if py_eq_str command "set_group" then
      ret (error "set_group unimplemented")
    else if py_eq_str command "create_group" then
      ret (error "create_group unimplemented")
    else if py_eq_str command "delete_group" then
      ret (error "delete_group unimplemented")
    else
      ret (error ("command " +:+ py_str command +:+ " is not supported")))
  (fun e => ret (error (str_exn e))).

(** A session: commands processed one after the other on the same
    object; the replies are collected. *)
Fixpoint run_cmds (cmds : list dict) (self : EthAudioApi) : list (res pyval) * EthAudioApi :=
  match cmds with
  | [] => ([], self)
  | cmd :: cmds' =>
      let '(r, self') := parse_cmd cmd self in
      let '(rs, self'') := run_cmds cmds' self' in
      (r :: rs, self'')
  end.

End Controller.

Arguments _rt {R} _.
Arguments status {R} _.
Arguments put_zone {R} idx z self.
Arguments put_source {R} idx s self.

(** ** Vocabulary of the properties *)

(** [v[k]] when [v] is a dictionary that has the key. *)
Definition py_get (v : pyval) (k : string) : option pyval :=
  match v with
  | PDict d => dict_get d k
  | _ => None
  end.

(** The outcome of an operation started on [self]: it returned [None], or
    it returned an error and the status is the one it started with. *)
Definition atomic_outcome {R} (self : EthAudioApi R) (out : res pyval * EthAudioApi R) : Prop :=
  fst out = Ok PNone \/
  exists msg, fst out = Ok (error msg) /\ status (snd out) = status self.

(** The outcome is an error and the status is the one of [self]. *)
Definition rejected {R} (self : EthAudioApi R) (out : res pyval * EthAudioApi R) : Prop :=
  exists msg, fst out = Ok (error msg) /\ status (snd out) = status self.

(** The outcome of a [try] body started on [self]: as above, or it raised
    before it changed anything. *)
Definition returns_or_raises {R} (self : EthAudioApi R) (out : res pyval * EthAudioApi R) : Prop :=
  atomic_outcome self out \/ exists e, out = (Raise e, self).

(** [command] is one of the names [parse_cmd] knows. *)
Definition is_known (command : pyval) : bool :=
  existsb (py_eq_str command)
    ["return_state"; "set_power"; "set_source"; "set_zone";
     "set_group"; "create_group"; "delete_group"].

(** Source ids 0..3. *)
Definition valid_source_id (n : Z) : bool := (0 <=? n) && (n <=? 3).

(** The keys [parse_cmd] reads for a command, in the order it reads
    them. *)
Definition argument_keys (command : string) : list string :=
  if String.eqb command "set_power" then ["audio_power"; "usb_power"]
  else if String.eqb command "set_source" then ["id"; "name"; "digital"]
  else if String.eqb command "set_zone" then
    ["id"; "name"; "source_id"; "mute"; "stby"; "vol"; "disabled"]
  else [].

(** *** Sparse updates, as the specification words them

    An update is a sparse view of its entity: an absent field means
    "unchanged", a present field replaces. *)

Record PowerUpdate : Type := {
  u_audio_power : option bool;
  u_usb_power : option bool
}.

Record SourceUpdate : Type := {
  u_s_name : option string;
  u_digital : option bool
}.

Record ZoneUpdate : Type := {
  u_name : option string;
  u_source_id : option Z;
  u_mute : option bool;
  u_stby : option bool;
  u_vol : option Z;
  u_disabled : option bool
}.

Definition spec_merge_power (p : Power) (u : PowerUpdate) : Power := {|
  p_audio_power := default (p_audio_power p) (u_audio_power u);
  p_usb_power := default (p_usb_power p) (u_usb_power u)
|}.

Definition spec_merge_source (s : Source) (u : SourceUpdate) : Source := {|
  s_id := s_id s;
  s_name := default (s_name s) (u_s_name u);
  s_digital := default (s_digital s) (u_digital u)
|}.

Definition spec_merge_zone (z : Zone) (u : ZoneUpdate) : Zone := {|
  z_id := z_id z;
  z_name := default (z_name z) (u_name u);
  z_source_id := default (z_source_id z) (u_source_id u);
  z_mute := default (z_mute z) (u_mute u);
  z_stby := default (z_stby z) (u_stby u);
  z_disabled := default (z_disabled z) (u_disabled u);
  z_vol := default (z_vol z) (u_vol u)
|}.

(** The argument an operation receives for a field of an update: [None]
    when the field is absent. *)
Definition arg {A} (inj : A -> pyval) (field : option A) : pyval :=
  match field with
  | Some a => inj a
  | None => PNone
  end.

(** The six arguments of a [rt.set_zone] call. *)
Definition zone_call : Type := (Z * Z * bool * bool * Z * bool)%type.

(** The state of the mock after [set_zone] was called on it. *)
Definition mock_after_set_zone (c : zone_call) (self : MockRt.state) : MockRt.state :=
  let '(id, source_id, mute, stby, vol, disabled) := c in
  snd (MockRt.set_zone id source_id mute stby vol disabled self).

(** A runtime that fails for one zone only: [set_zone] answers [False]
    for zone 1 and [True] for every other zone; the other two calls
    answer [True].  It stands for hardware with one faulty output. *)
Definition zone_1_fails_rt : Runtime := {|
  rt_state := unit;
  rt_set_power := fun _ _ self => (true, self);
  rt_set_source := fun _ _ self => (true, self);
  rt_set_zone := fun id _ _ _ _ _ self => (negb (id =? 1), self)
|}.

(** A full [set_zone] command, the way the JSON interface sends it. *)
Definition set_zone_cmd (id name source_id mute stby vol disabled : pyval) : dict :=
  [("command", PStr "set_zone"); ("id", id); ("name", name); ("source_id", source_id);
   ("mute", mute); ("stby", stby); ("vol", vol); ("disabled", disabled)].

(** * Properties *)

(** ** The lookup loop *)

Section FindIdx.
Context `{Builtins} {A : Type} (get_id : A -> Z).

Lemma find_idx_snoc (l : list A) (x : A) (id : pyval) :
  find_idx get_id (l ++ [x]) id =
  if py_eq_int id (get_id x) then Some (length l) else find_idx get_id l id.
Proof.
  unfold find_idx. rewrite imap_app, fold_left_app. simpl.
  rewrite Nat.add_0_r. reflexivity.
Qed.

(** The loop answers the position of an entry whose id equals [id]. *)
Lemma find_idx_Some (l : list A) (id : pyval) (idx : nat) :
  find_idx get_id l id = Some idx ->
  exists s, l !! idx = Some s /\ py_eq_int id (get_id s) = true.
Proof.
  revert idx. induction l as [|x l IH] using rev_ind; intros idx Hf.
  - discriminate.
  - rewrite find_idx_snoc in Hf.
    destruct (py_eq_int id (get_id x)) eqn:E.
    + injection Hf as <-. exists x. split; [|assumption].
      rewrite lookup_app_r by lia. rewrite Nat.sub_diag. reflexivity.
    + destruct (IH idx Hf) as (s & Hs & Hm). exists s. split; [|assumption].
      rewrite lookup_app_l; [assumption|]. eapply lookup_lt_Some; eassumption.
Qed.

(** The loop answers [None] exactly when no entry has the id. *)
Lemma find_idx_None (l : list A) (id : pyval) :
  find_idx get_id l id = None <->
  Forall (fun s => py_eq_int id (get_id s) = false) l.
Proof.
  induction l as [|x l IH] using rev_ind.
  - split; [constructor | reflexivity].
  - rewrite find_idx_snoc, Forall_app, Forall_singleton.
    destruct (py_eq_int id (get_id x)); split.
    + discriminate.
    + intros [_ ?]; discriminate.
    + intros Hn. split; [apply IH; assumption | reflexivity].
    + intros [Hl _]. apply IH; assumption.
Qed.

End FindIdx.

(** ** What each operation computes *)

Section Operations.
Context `{Builtins} (R : Runtime).

Lemma put_zone_lookup idx z z0 (self : EthAudioApi R) :
  zones (status self) !! idx = Some z0 ->
  zones (status (put_zone idx z self)) !! idx = Some z.
Proof.
  intros Hz. simpl. apply list_lookup_insert_eq. eapply lookup_lt_Some; eassumption.
Qed.

Lemma put_zone_twice idx z1 z2 (self : EthAudioApi R) :
  put_zone idx z2 (put_zone idx z1 self) = put_zone idx z2 self.
Proof.
  unfold put_zone, with_status, with_zones. simpl.
  rewrite list_insert_insert_eq. reflexivity.
Qed.

Lemma put_source_lookup idx s s0 (self : EthAudioApi R) :
  sources (status self) !! idx = Some s0 ->
  sources (status (put_source idx s self)) !! idx = Some s.
Proof.
  intros Hs. simpl. apply list_lookup_insert_eq. eapply lookup_lt_Some; eassumption.
Qed.

Lemma put_source_twice idx s1 s2 (self : EthAudioApi R) :
  put_source idx s2 (put_source idx s1 self) = put_source idx s2 self.
Proof.
  unfold put_source, with_status, with_sources. simpl.
  rewrite list_insert_insert_eq. reflexivity.
Qed.

(** One assignment to a zone that exists, followed by the rest. *)
Lemma assign_zone_then {A} idx set z (k : M (EthAudioApi R) A) self :
  zones (status self) !! idx = Some z ->
  (assign_zone R idx set;;; k) self = k (put_zone idx (set z) self).
Proof.
  intros Hz. unfold bind, assign_zone, bind, zone_at, modify. rewrite Hz. reflexivity.
Qed.

Lemma assign_source_then {A} idx set s (k : M (EthAudioApi R) A) self :
  sources (status self) !! idx = Some s ->
  (assign_source R idx set;;; k) self = k (put_source idx (set s) self).
Proof.
  intros Hs. unfold bind, assign_source, bind, source_at, modify. rewrite Hs. reflexivity.
Qed.

(** [set_power] in one step. *)
Lemma set_power_eq audio_power usb_power self :
  set_power R audio_power usb_power self =
  let p := power (status self) in
  let a := py_bool (updated_val audio_power (PBool (p_audio_power p))) in
  let u := py_bool (updated_val usb_power (PBool (p_usb_power p))) in
  let '(ok, rt') := rt_set_power R a u (_rt self) in
  if ok then
    (Ok PNone,
     {| _rt := rt';
        status := with_power {| p_audio_power := a; p_usb_power := u |} (status self) |})
  else
    (Ok (error "failed to set power"), {| _rt := rt'; status := status self |}).
Proof.
  unfold set_power, bind, gets, call_rt. simpl.
  destruct (rt_set_power R _ _ (_rt self)) as [[] rt']; reflexivity.
Qed.

(** [set_source] in one step. *)
Lemma set_source_eq id name digital self :
  set_source R id name digital self =
  match find_idx s_id (sources (status self)) id with
  | None => (Ok (error "set source: index None out of bounds"), self)
  | Some idx =>
      match sources (status self) !! idx with
      | None =>
          (Ok (error "failed to set source, error getting current state: list index out of range"),
           self)
      | Some src =>
          let n := py_str (updated_val name (PStr (s_name src))) in
          let d := py_bool (updated_val digital (PBool (s_digital src))) in
          let '(ok, rt') := rt_set_source R (Z.of_nat idx) d (_rt self) in
          if ok then
            (Ok PNone,
             put_source idx {| s_id := s_id src; s_name := n; s_digital := d |}
                        {| _rt := rt'; status := status self |})
          else
            (Ok (error "failed to set source"), {| _rt := rt'; status := status self |})
      end
  end.
Proof.
  unfold set_source. unfold bind at 1. unfold gets at 1.
  destruct (find_idx s_id (sources (status self)) id) as [idx|]; [|reflexivity].
  unfold bind at 1, attempt, bind at 1, source_at at 1.
  destruct (sources (status self) !! idx) as [src|] eqn:Hsrc; [|reflexivity].
  unfold ret at 1, try_except. unfold bind at 1. unfold call_rt at 1.
  destruct (rt_set_source R _ _ (_rt self)) as [[] rt']; [|reflexivity].
  set (self1 := {| _rt := rt'; status := status self |}).
  assert (H1 : sources (status self1) !! idx = Some src) by exact Hsrc.
  rewrite (assign_source_then _ _ _ _ _ H1).
  rewrite (assign_source_then _ _ _ _ _ (put_source_lookup _ _ _ _ H1)).
  rewrite put_source_twice. reflexivity.
Qed.

(** [set_zone] in one step. *)
Lemma set_zone_eq id name source_id mute stby vol disabled self :
  set_zone R id name source_id mute stby vol disabled self =
  match find_idx z_id (zones (status self)) id with
  | None => (Ok (error "set zone: index None out of bounds"), self)
  | Some idx =>
      match zones (status self) !! idx with
      | None =>
          (Ok (error "failed to set zone, error getting current state: list index out of range"),
           self)
      | Some z =>
          let n := py_str (updated_val name (PStr (z_name z))) in
          let m := py_bool (updated_val mute (PBool (z_mute z))) in
          let s := py_bool (updated_val stby (PBool (z_stby z))) in
          let d := py_bool (updated_val disabled (PBool (z_disabled z))) in
          match parse_int (updated_val source_id (PInt (z_source_id z))) (OList [1; 2; 3; 4]) with
          | Raise e => (Ok (error ("set zone" +:+ str_exn e)), self)
          | Ok sid =>
              match parse_int (updated_val vol (PInt (z_vol z))) (ORange (-79) 1) with
              | Raise e => (Ok (error ("set zone" +:+ str_exn e)), self)
              | Ok v =>
                  let '(ok, rt') := rt_set_zone R (Z.of_nat idx) sid m s v d (_rt self) in
                  if ok then
                    (Ok PNone,
                     put_zone idx {| z_id := z_id z; z_name := n; z_source_id := sid;
                                     z_mute := m; z_stby := s; z_disabled := d; z_vol := v |}
                              {| _rt := rt'; status := status self |})
                  else
                    (Ok (error "failed to set zone"), {| _rt := rt'; status := status self |})
              end
          end
      end
  end.
Proof.
  unfold set_zone. unfold bind at 1. unfold gets at 1.
  destruct (find_idx z_id (zones (status self)) id) as [idx|]; [|reflexivity].
  unfold bind at 1, attempt, bind at 1, zone_at at 1.
  destruct (zones (status self) !! idx) as [z|] eqn:Hz; [|reflexivity].
  unfold ret at 1, try_except. unfold bind at 1.
  destruct (parse_int (updated_val source_id _) _) as [sid|e]; [|reflexivity].
  unfold bind at 1.
  destruct (parse_int (updated_val vol _) _) as [v|e]; [|reflexivity].
  unfold bind at 1. unfold call_rt at 1.
  destruct (rt_set_zone R _ _ _ _ _ _ (_rt self)) as [[] rt']; [|reflexivity].
  set (self1 := {| _rt := rt'; status := status self |}).
  assert (H1 : zones (status self1) !! idx = Some z) by exact Hz.
  rewrite (assign_zone_then _ _ _ _ _ H1).
  pose proof (put_zone_lookup idx (set_z_name (py_str (updated_val name (PStr (z_name z)))) z)
                _ _ H1) as H2.
  rewrite (assign_zone_then _ _ _ _ _ H2), put_zone_twice.
  repeat match goal with
  | |- context [bind (assign_zone R idx ?f) _ (put_zone idx ?z0 self1)] =>
      rewrite (assign_zone_then idx f z0 _ (put_zone idx z0 self1)
                 (put_zone_lookup idx z0 _ _ H1)), put_zone_twice
  end.
  reflexivity.
Qed.

End Operations.

(** ** Outcomes of the three operations *)

Section Outcomes.
Context `{Builtins} (R : Runtime).

Lemma set_power_atomic audio_power usb_power (self : EthAudioApi R) :
  atomic_outcome self (set_power R audio_power usb_power self).
Proof.
  rewrite set_power_eq. cbv zeta.
  destruct (rt_set_power R _ _ (_rt self)) as [[] rt'].
  - left. reflexivity.
  - right. eexists. split; reflexivity.
Qed.

Lemma set_source_atomic id name digital (self : EthAudioApi R) :
  atomic_outcome self (set_source R id name digital self).
Proof.
  rewrite set_source_eq.
  destruct (find_idx s_id _ id) as [idx|]; [|right; eexists; split; reflexivity].
  destruct (sources (status self) !! idx) as [src|]; [|right; eexists; split; reflexivity].
  cbv zeta. destruct (rt_set_source R _ _ (_rt self)) as [[] rt'].
  - left. reflexivity.
  - right. eexists. split; reflexivity.
Qed.

Lemma set_zone_atomic id name source_id mute stby vol disabled (self : EthAudioApi R) :
  atomic_outcome self (set_zone R id name source_id mute stby vol disabled self).
Proof.
  rewrite set_zone_eq.
  destruct (find_idx z_id _ id) as [idx|]; [|right; eexists; split; reflexivity].
  destruct (zones (status self) !! idx) as [z|]; [|right; eexists; split; reflexivity].
  cbv zeta.
  destruct (parse_int (updated_val source_id _) _) as [sid|e];
    [|right; eexists; split; reflexivity].
  destruct (parse_int (updated_val vol _) _) as [v|e];
    [|right; eexists; split; reflexivity].
  destruct (rt_set_zone R _ _ _ _ _ _ (_rt self)) as [[] rt'].
  - left. reflexivity.
  - right. eexists. split; reflexivity.
Qed.

(** A runtime call that fails makes the operation fail and leaves the
    status as it was. *)
Lemma set_power_rt_fails audio_power usb_power (self : EthAudioApi R) :
  (forall a u, fst (rt_set_power R a u (_rt self)) = false) ->
  rejected self (set_power R audio_power usb_power self).
Proof.
  intros Hf. rewrite set_power_eq. cbv zeta.
  match goal with |- context [rt_set_power R ?a ?u ?s] =>
    specialize (Hf a u); destruct (rt_set_power R a u s) as [ok rt'] end.
  simpl in Hf. subst ok. eexists. split; reflexivity.
Qed.

Lemma set_source_rt_fails id name digital (self : EthAudioApi R) :
  (forall i d, fst (rt_set_source R i d (_rt self)) = false) ->
  rejected self (set_source R id name digital self).
Proof.
  intros Hf. rewrite set_source_eq.
  destruct (find_idx s_id _ id) as [idx|]; [|eexists; split; reflexivity].
  destruct (sources (status self) !! idx) as [src|]; [|eexists; split; reflexivity].
  cbv zeta.
  match goal with |- context [rt_set_source R ?i ?d ?s] =>
    specialize (Hf i d); destruct (rt_set_source R i d s) as [ok rt'] end.
  simpl in Hf. subst ok. eexists. split; reflexivity.
Qed.

Lemma set_zone_rt_fails id name source_id mute stby vol disabled (self : EthAudioApi R) :
  (forall i sid m s v d, fst (rt_set_zone R i sid m s v d (_rt self)) = false) ->
  rejected self (set_zone R id name source_id mute stby vol disabled self).
Proof.
  intros Hf. rewrite set_zone_eq.
  destruct (find_idx z_id _ id) as [idx|]; [|eexists; split; reflexivity].
  destruct (zones (status self) !! idx) as [z|]; [|eexists; split; reflexivity].
  cbv zeta.
  destruct (parse_int (updated_val source_id _) _) as [sid|e]; [|eexists; split; reflexivity].
  destruct (parse_int (updated_val vol _) _) as [v|e]; [|eexists; split; reflexivity].
  match goal with |- context [rt_set_zone R ?i ?a ?m ?s ?b ?d ?st] =>
    specialize (Hf i a m s b d); destruct (rt_set_zone R i a m s b d st) as [ok rt'] end.
  simpl in Hf. subst ok. eexists. split; reflexivity.
Qed.

End Outcomes.

(** ** Command dispatch *)

Section Dispatch.
Context `{Builtins} (R : Runtime).

Lemma getitem_bind {S A} (cmd : dict) (k : string) (f : pyval -> M S A) (self : S) :
  (x <- getitem cmd k;; f x) self =
  match dict_get cmd k with
  | Some v => f v self
  | None => (Raise (KeyError k), self)
  end.
Proof. unfold bind, getitem. destruct (dict_get cmd k); reflexivity. Qed.

(** The handler of [parse_cmd] turns a raise into an error. *)
Lemma try_except_error (m : M (EthAudioApi R) pyval) (self : EthAudioApi R) :
  returns_or_raises self (m self) ->
  atomic_outcome self (try_except m (fun e => ret (error (str_exn e))) self).
Proof.
  unfold try_except. intros [[Hn | (msg & Hm & Hs)] | (e & He)].
  - destruct (m self) as [[v|e] s']; simpl in *; [|discriminate].
    left. assumption.
  - destruct (m self) as [[v|e] s']; simpl in *; [|discriminate].
    right. exists msg. split; assumption.
  - rewrite He. right. eexists. split; reflexivity.
Qed.

Lemma error_returned msg (self : EthAudioApi R) :
  returns_or_raises self (ret (error msg) self).
Proof. left. right. exists msg. split; reflexivity. Qed.

Ltac next_key :=
  rewrite getitem_bind;
  match goal with
  | |- context [dict_get ?cmd ?k] =>
      destruct (dict_get cmd k); [|right; eexists; reflexivity]
  end.

(** Every command either succeeds or fails without a trace. *)
Lemma parse_cmd_atomic (cmd : dict) (self : EthAudioApi R) :
  atomic_outcome self (parse_cmd R cmd self).
Proof.
  unfold parse_cmd. apply try_except_error.
  rewrite getitem_bind.
  destruct (dict_get cmd "command") as [command|]; [|right; eexists; reflexivity].
  destruct (is_None command); [apply error_returned|].
  destruct (py_eq_str command "return_state"); [left; left; reflexivity|].
  destruct (py_eq_str command "set_power").
  { do 2 next_key. left. apply set_power_atomic. }
  destruct (py_eq_str command "set_source").
  { do 3 next_key. left. apply set_source_atomic. }
  destruct (py_eq_str command "set_zone").
  { do 7 next_key. left. apply set_zone_atomic. }
  repeat (match goal with |- context [py_eq_str command ?s] =>
            destruct (py_eq_str command s) end; [apply error_returned|]).
  apply error_returned.
Qed.

(** A command without the key ['command']. *)
Lemma parse_cmd_no_command (cmd : dict) (self : EthAudioApi R) :
  dict_get cmd "command" = None ->
  parse_cmd R cmd self = (Ok (error "'command'"), self).
Proof.
  intros Hc. unfold parse_cmd, try_except. rewrite getitem_bind, Hc. reflexivity.
Qed.

(** A command whose name is not one of the known ones. *)
Lemma parse_cmd_unknown (cmd : dict) (command : pyval) (self : EthAudioApi R) :
  dict_get cmd "command" = Some command ->
  is_None command = false ->
  is_known command = false ->
  parse_cmd R cmd self =
  (Ok (error ("command " +:+ py_str command +:+ " is not supported")), self).
Proof.
  intros Hc Hn Hk. unfold parse_cmd, try_except. rewrite getitem_bind, Hc, Hn.
  unfold is_known in Hk. simpl in Hk.
  repeat (apply orb_false_elim in Hk; destruct Hk as [Hk1 Hk]; rewrite Hk1; clear Hk1).
  reflexivity.
Qed.

(** A known command that lacks one of the keys it reads. *)
Lemma parse_cmd_missing_key (cmd : dict) (command key : string) (self : EthAudioApi R) :
  dict_get cmd "command" = Some (PStr command) ->
  key ∈ argument_keys command ->
  dict_get cmd key = None ->
  rejected self (parse_cmd R cmd self).
Proof.
  intros Hc Hk Hm. unfold parse_cmd, try_except. rewrite getitem_bind, Hc.
  unfold argument_keys in Hk. cbn [is_None py_eq_str].
  destruct (String.eqb_spec command "set_power") as [->|_].
  { cbn. repeat (rewrite getitem_bind;
      match goal with |- context [dict_get cmd ?k] => destruct (dict_get cmd k) eqn:? end;
      [|eexists; split; reflexivity]).
    repeat (apply elem_of_cons in Hk; destruct Hk as [->|Hk]; [congruence|]).
    inversion Hk. }
  destruct (String.eqb_spec command "set_source") as [->|_].
  { cbn. repeat (rewrite getitem_bind;
      match goal with |- context [dict_get cmd ?k] => destruct (dict_get cmd k) eqn:? end;
      [|eexists; split; reflexivity]).
    repeat (apply elem_of_cons in Hk; destruct Hk as [->|Hk]; [congruence|]).
    inversion Hk. }
  destruct (String.eqb_spec command "set_zone") as [->|_].
  { cbn. repeat (rewrite getitem_bind;
      match goal with |- context [dict_get cmd ?k] => destruct (dict_get cmd k) eqn:? end;
      [|eexists; split; reflexivity]).
    repeat (apply elem_of_cons in Hk; destruct Hk as [->|Hk]; [congruence|]).
    inversion Hk. }
  inversion Hk.
Qed.

(** Every reply of a session is [None] or an error. *)
Lemma run_cmds_replies (cmds : list dict) (self : EthAudioApi R) :
  Forall (fun r => r = Ok PNone \/ exists msg, r = Ok (error msg))
         (fst (run_cmds R cmds self)).
Proof.
  revert self. induction cmds as [|cmd cmds IH]; intros self; simpl.
  - constructor.
  - pose proof (parse_cmd_atomic cmd self) as Ha.
    destruct (parse_cmd R cmd self) as [r self'].
    specialize (IH self'). destruct (run_cmds R cmds self') as [rs self''].
    simpl in *. constructor; [|assumption].
    destruct Ha as [Hn | (msg & Hm & _)]; [left | right; exists msg]; assumption.
Qed.

(** A command either leaves the object alone or is one call of one of the
    three operations. *)
Lemma parse_cmd_cases (cmd : dict) (self : EthAudioApi R) :
  (exists r, parse_cmd R cmd self = (r, self)) \/
  (exists a u, parse_cmd R cmd self = set_power R a u self) \/
  (exists i n d, parse_cmd R cmd self = set_source R i n d self) \/
  (exists i n s m sb v d, parse_cmd R cmd self = set_zone R i n s m sb v d self).
Proof.
  assert (Hpass : forall m : M (EthAudioApi R) pyval,
            atomic_outcome self (m self) ->
            (let (r, self') := m self in
             match r with
             | Ok a => (Ok a, self')
             | Raise e => ret (error (str_exn e)) self'
             end) = m self).
  { intros m Ha. destruct (m self) as [[v|e] s']; [reflexivity|].
    destruct Ha as [Hn | (msg & Hm & _)]; discriminate. }
  unfold parse_cmd, try_except. rewrite getitem_bind.
  destruct (dict_get cmd "command") as [command|]; [|left; eexists; reflexivity].
  destruct (is_None command); [left; eexists; reflexivity|].
  destruct (py_eq_str command "return_state"); [left; eexists; reflexivity|].
  destruct (py_eq_str command "set_power").
  { repeat (rewrite getitem_bind;
      match goal with |- context [dict_get cmd ?k] => destruct (dict_get cmd k) end;
      [|left; eexists; reflexivity]).
    right; left. do 2 eexists. apply (Hpass (set_power R _ _)), set_power_atomic. }
  destruct (py_eq_str command "set_source").
  { repeat (rewrite getitem_bind;
      match goal with |- context [dict_get cmd ?k] => destruct (dict_get cmd k) end;
      [|left; eexists; reflexivity]).
    right; right; left. do 3 eexists. apply (Hpass (set_source R _ _ _)), set_source_atomic. }
  destruct (py_eq_str command "set_zone").
  { repeat (rewrite getitem_bind;
      match goal with |- context [dict_get cmd ?k] => destruct (dict_get cmd k) end;
      [|left; eexists; reflexivity]).
    right; right; right. do 7 eexists.
    apply (Hpass (set_zone R _ _ _ _ _ _ _)), set_zone_atomic. }
  repeat (match goal with |- context [py_eq_str command ?s] =>
            destruct (py_eq_str command s) end; [left; eexists; reflexivity|]).
  left; eexists; reflexivity.
Qed.

(** What the three operations preserve, every session preserves. *)
Lemma run_cmds_preserves (P : Status -> Prop) :
  (forall a u (self : EthAudioApi R),
     P (status self) -> P (status (snd (set_power R a u self)))) ->
  (forall i n d (self : EthAudioApi R),
     P (status self) -> P (status (snd (set_source R i n d self)))) ->
  (forall i n s m sb v d (self : EthAudioApi R),
     P (status self) -> P (status (snd (set_zone R i n s m sb v d self)))) ->
  forall cmds (self : EthAudioApi R),
    P (status self) -> P (status (snd (run_cmds R cmds self))).
Proof.
  intros Hp Hs Hz cmds. induction cmds as [|cmd cmds IH]; intros self HP; simpl.
  - assumption.
  - assert (HP' : P (status (snd (parse_cmd R cmd self)))).
    { destruct (parse_cmd_cases cmd self)
        as [(r & E) | [(a & u & E) | [(i & n & d & E) | (i & n & s & m & sb & v & d & E)]]];
        rewrite E; [assumption | apply Hp | apply Hs | apply Hz]; assumption. }
    destruct (parse_cmd R cmd self) as [r self']. simpl in HP'.
    specialize (IH self' HP'). destruct (run_cmds R cmds self') as [rs self''].
    assumption.
Qed.

End Dispatch.

(** ** The status after construction *)

(** C6, as the code has it: a newly constructed controller holds exactly
    4 sources named "Source 1" to "Source 4", each recorded with
    [digital = False] (the analog input; a source has no [input] entry),
    and 6 zones, each with [source_id = 0], [vol = 0] and [mute], [stby],
    [disabled] all [False]. *)
Theorem fresh_boot_status `{Builtins} (R : Runtime) (rt : rt_state R) :
  let st := status (new R rt) in
  fst (get_state R (new R rt)) = Ok (status_doc st) /\
  s_name <$> sources st = ["Source 1"; "Source 2"; "Source 3"; "Source 4"] /\
  Forall (fun s => py_get (source_doc s) "digital" = Some (PBool false) /\
                   py_get (source_doc s) "input" = None) (sources st) /\
  length (zones st) = 6%nat /\
  Forall (fun z => z_source_id z = 0 /\ z_vol z = 0 /\ z_mute z = false /\
                   z_stby z = false /\ z_disabled z = false) (zones st).
Proof.
  cbv zeta. simpl. repeat split.
  - repeat constructor.
  - repeat constructor.
Qed.

(** C6, as worded: the sources of a fresh controller would each carry
    [input = "local"]; the first one already has no such entry. *)
Lemma fresh_boot_sources_lack_input :
  ~ Forall (fun s => py_get (source_doc s) "input" = Some (PStr "local"))
           (sources (status (new MockRt.rt MockRt.init))).
Proof.
  intros Hall. apply Forall_inv in Hall. discriminate Hall.
Qed.

(** ** The runtimes *)

(** C8, as the code has it: every call to the mock's [set_power],
    [set_source] and [set_zone] answers [True], whatever the arguments,
    and leaves the mock as it was: it keeps no record of the call. *)
Theorem mock_succeeds_and_does_nothing
    (audio_on usb_on : bool) (sid : Z) (dig : bool)
    (id source_id : Z) (mute stby : bool) (vol : Z) (disabled : bool)
    (self : MockRt.state) :
  MockRt.set_power audio_on usb_on self = (true, self) /\
  MockRt.set_source sid dig self = (true, self) /\
  MockRt.set_zone id source_id mute stby vol disabled self = (true, self).
Proof. repeat split. Qed.

(** C8, as worded: the mock would hold the arguments of its last
    [set_zone] call for a test to read back; no way of reading the mock
    can tell two different calls apart. *)
Lemma mock_keeps_no_record :
  ~ exists observe : MockRt.state -> zone_call,
      forall (c : zone_call) (self : MockRt.state),
        observe (mock_after_set_zone c self) = c.
Proof.
  intros [observe Hobs].
  pose proof (Hobs (0, 2, false, false, 0, false) tt) as H1.
  pose proof (Hobs (1, 3, false, false, 0, false) tt) as H2.
  simpl in H1, H2. rewrite H1 in H2. discriminate H2.
Qed.

(** C10: each of [RpiRt]'s [set_power], [set_source] and [set_zone]
    answers [False] for all arguments; so on a controller built over
    [RpiRt] each of the three operations returns an error, and after any
    session of commands the status is still the initial one. *)
Theorem rpi_runtime_never_commits `{Builtins} :
  (forall audio_on usb_on sid dig id source_id mute stby vol disabled self,
     fst (RpiRt.set_power audio_on usb_on self) = false /\
     fst (RpiRt.set_source sid dig self) = false /\
     fst (RpiRt.set_zone id source_id mute stby vol disabled self) = false) /\
  (forall (self : EthAudioApi RpiRt.rt) id name source_id mute stby vol disabled
          digital audio_power usb_power,
     rejected self (set_power RpiRt.rt audio_power usb_power self) /\
     rejected self (set_source RpiRt.rt id name digital self) /\
     rejected self (set_zone RpiRt.rt id name source_id mute stby vol disabled self)) /\
  (forall (cmds : list dict) (rt : RpiRt.state),
     status (snd (run_cmds RpiRt.rt cmds (new RpiRt.rt rt))) = initial_status).
Proof.
  split; [|split].
  - intros. repeat split.
  - intros. split; [|split].
    + apply set_power_rt_fails. reflexivity.
    + apply set_source_rt_fails. reflexivity.
    + apply set_zone_rt_fails. reflexivity.
  - intros cmds rt.
    apply (run_cmds_preserves RpiRt.rt (fun st => st = initial_status)).
    + intros a u self Hst.
      destruct (set_power_rt_fails RpiRt.rt a u self) as (msg & _ & Hs);
        [reflexivity | congruence].
    + intros i n d self Hst.
      destruct (set_source_rt_fails RpiRt.rt i n d self) as (msg & _ & Hs);
        [reflexivity | congruence].
    + intros i n s m sb v d self Hst.
      destruct (set_zone_rt_fails RpiRt.rt i n s m sb v d self) as (msg & _ & Hs);
        [reflexivity | congruence].
    + reflexivity.
Qed.

(** ** Failure handling *)

(** C3: a call to [set_power], [set_source] or [set_zone] on any status
    either returns [None] and the status is the committed post-state (the
    addressed entity holds the merged, validated values in every field and
    the rest of the status is as before), or it returns an error dictionary
    and the status is exactly as it was. *)
Theorem operations_atomic `{Builtins} (R : Runtime) (self : EthAudioApi R)
    (id name source_id mute stby vol disabled digital audio_power usb_power : pyval) :
  let out_p := set_power R audio_power usb_power self in
  let out_s := set_source R id name digital self in
  let out_z := set_zone R id name source_id mute stby vol disabled self in
  ((fst out_p = Ok PNone /\
    status (snd out_p) =
      with_power
        {| p_audio_power :=
             py_bool (updated_val audio_power (PBool (p_audio_power (power (status self)))));
           p_usb_power :=
             py_bool (updated_val usb_power (PBool (p_usb_power (power (status self))))) |}
        (status self)) \/
   rejected self out_p) /\
  ((fst out_s = Ok PNone /\
    exists idx src,
      find_idx s_id (sources (status self)) id = Some idx /\
      sources (status self) !! idx = Some src /\
      status (snd out_s) =
        with_sources
          (<[idx := {| s_id := s_id src;
                       s_name := py_str (updated_val name (PStr (s_name src)));
                       s_digital := py_bool (updated_val digital (PBool (s_digital src))) |}]>
             (sources (status self)))
          (status self)) \/
   rejected self out_s) /\
  ((fst out_z = Ok PNone /\
    exists idx z sid v,
      find_idx z_id (zones (status self)) id = Some idx /\
      zones (status self) !! idx = Some z /\
      parse_int (updated_val source_id (PInt (z_source_id z))) (OList [1; 2; 3; 4]) = Ok sid /\
      parse_int (updated_val vol (PInt (z_vol z))) (ORange (-79) 1) = Ok v /\
      status (snd out_z) =
        with_zones
          (<[idx := {| z_id := z_id z;
                       z_name := py_str (updated_val name (PStr (z_name z)));
                       z_source_id := sid;
                       z_mute := py_bool (updated_val mute (PBool (z_mute z)));
                       z_stby := py_bool (updated_val stby (PBool (z_stby z)));
                       z_disabled := py_bool (updated_val disabled (PBool (z_disabled z)));
                       z_vol := v |}]>
             (zones (status self)))
          (status self)) \/
   rejected self out_z).
Proof.
  cbv zeta. split; [|split].
  - rewrite set_power_eq. cbv zeta.
    destruct (rt_set_power R _ _ (_rt self)) as [[] rt'].
    + left. split; reflexivity.
    + right. eexists. split; reflexivity.
  - rewrite set_source_eq.
    destruct (find_idx s_id _ id) as [idx|]; [|right; eexists; split; reflexivity].
    destruct (sources (status self) !! idx) as [src|] eqn:Hs;
      [|right; eexists; split; reflexivity].
    cbv zeta. destruct (rt_set_source R _ _ (_rt self)) as [[] rt'].
    + left. split; [reflexivity|]. exists idx, src.
      split; [reflexivity | split; [exact Hs | reflexivity]].
    + right. eexists. split; reflexivity.
  - rewrite set_zone_eq.
    destruct (find_idx z_id _ id) as [idx|]; [|right; eexists; split; reflexivity].
    destruct (zones (status self) !! idx) as [z|] eqn:Hz;
      [|right; eexists; split; reflexivity].
    cbv zeta.
    destruct (parse_int (updated_val source_id _) _) as [sid|e] eqn:Hsid;
      [|right; eexists; split; reflexivity].
    destruct (parse_int (updated_val vol _) _) as [v|e] eqn:Hv;
      [|right; eexists; split; reflexivity].
    destruct (rt_set_zone R _ _ _ _ _ _ (_rt self)) as [[] rt'].
    + left. split; [reflexivity|]. exists idx, z, sid, v.
      split; [reflexivity | split; [exact Hz | split; [exact Hsid | split; [exact Hv|]]]].
      reflexivity.
    + right. eexists. split; reflexivity.
Qed.

(** C5: when the runtime reports failure for the call an operation makes
    (the call with the position found and the merged, validated values,
    on the runtime as it stands), the operation returns an error and
    commits nothing to the status.  The runtime may well succeed on other
    calls. *)
Theorem runtime_failure_not_committed `{Builtins} (R : Runtime) (self : EthAudioApi R)
    (id name source_id mute stby vol disabled digital audio_power usb_power : pyval) :
  (fst (rt_set_power R
          (py_bool (updated_val audio_power (PBool (p_audio_power (power (status self))))))
          (py_bool (updated_val usb_power (PBool (p_usb_power (power (status self))))))
          (_rt self)) = false ->
   rejected self (set_power R audio_power usb_power self)) /\
  ((forall idx src,
      find_idx s_id (sources (status self)) id = Some idx ->
      sources (status self) !! idx = Some src ->
      fst (rt_set_source R (Z.of_nat idx)
             (py_bool (updated_val digital (PBool (s_digital src)))) (_rt self)) = false) ->
   rejected self (set_source R id name digital self)) /\
  ((forall idx z sid v,
      find_idx z_id (zones (status self)) id = Some idx ->
      zones (status self) !! idx = Some z ->
      parse_int (updated_val source_id (PInt (z_source_id z))) (OList [1; 2; 3; 4]) = Ok sid ->
      parse_int (updated_val vol (PInt (z_vol z))) (ORange (-79) 1) = Ok v ->
      fst (rt_set_zone R (Z.of_nat idx) sid
             (py_bool (updated_val mute (PBool (z_mute z))))
             (py_bool (updated_val stby (PBool (z_stby z))))
             v
             (py_bool (updated_val disabled (PBool (z_disabled z)))) (_rt self)) = false) ->
   rejected self (set_zone R id name source_id mute stby vol disabled self)).
Proof.
  split; [|split].
  - intros Hf. rewrite set_power_eq. cbv zeta.
    destruct (rt_set_power R _ _ (_rt self)) as [ok rt']. simpl in Hf. subst ok.
    eexists. split; reflexivity.
  - intros Hf. rewrite set_source_eq.
    destruct (find_idx s_id _ id) as [idx|]; [|eexists; split; reflexivity].
    destruct (sources (status self) !! idx) as [src|] eqn:Hs; [|eexists; split; reflexivity].
    cbv zeta. specialize (Hf idx src eq_refl Hs).
    destruct (rt_set_source R _ _ (_rt self)) as [ok rt']. simpl in Hf. subst ok.
    eexists. split; reflexivity.
  - intros Hf. rewrite set_zone_eq.
    destruct (find_idx z_id _ id) as [idx|]; [|eexists; split; reflexivity].
    destruct (zones (status self) !! idx) as [z|] eqn:Hz; [|eexists; split; reflexivity].
    cbv zeta.
    destruct (parse_int (updated_val source_id _) _) as [sid|e] eqn:Hsid;
      [|eexists; split; reflexivity].
    destruct (parse_int (updated_val vol _) _) as [v|e] eqn:Hv;
      [|eexists; split; reflexivity].
    specialize (Hf idx z sid v eq_refl Hz Hsid Hv).
    destruct (rt_set_zone R _ _ _ _ _ _ (_rt self)) as [ok rt']. simpl in Hf. subst ok.
    eexists. split; reflexivity.
Qed.

(** ** Commands *)

(** C9: for every command dictionary [parse_cmd] returns [None] or an
    error dictionary and never raises; a missing ['command'] key, a
    missing argument key and an unknown command name each give an error,
    with the status untouched. *)
Theorem parse_cmd_total `{Builtins} (R : Runtime) (cmd : dict) (self : EthAudioApi R) :
  let out := parse_cmd R cmd self in
  (fst out = Ok PNone \/ exists msg, fst out = Ok (error msg)) /\
  (dict_get cmd "command" = None -> rejected self out) /\
  (forall command key,
     dict_get cmd "command" = Some (PStr command) ->
     key ∈ argument_keys command ->
     dict_get cmd key = None ->
     rejected self out) /\
  (forall command,
     dict_get cmd "command" = Some command ->
     is_None command = false ->
     is_known command = false ->
     rejected self out).
Proof.
  cbv zeta. split; [|split; [|split]].
  - destruct (parse_cmd_atomic R cmd self) as [Hn | (msg & Hm & _)];
      [left | right; exists msg]; assumption.
  - intros Hc. rewrite (parse_cmd_no_command R cmd self Hc).
    eexists. split; reflexivity.
  - intros command key Hc Hk Hm. eapply parse_cmd_missing_key; eassumption.
  - intros command Hc Hn Hk. rewrite (parse_cmd_unknown R cmd command self Hc Hn Hk).
    eexists. split; reflexivity.
Qed.

(** C7, as the code has it: a [set_group] command, whatever its
    [vol_delta], is answered with the error "set_group unimplemented",
    and no zone's volume (nothing of the object) changes. *)
Theorem set_group_unimplemented `{Builtins} (R : Runtime) (cmd : dict) (self : EthAudioApi R) :
  dict_get cmd "command" = Some (PStr "set_group") ->
  parse_cmd R cmd self = (Ok (error "set_group unimplemented"), self).
Proof.
  intros Hc. unfold parse_cmd, try_except. rewrite getitem_bind, Hc. reflexivity.
Qed.

(** C7, as worded: lowering group 0 (zones 0, 1, 2, all at volume 0) by 5
    would succeed and leave its members at -5. *)
Lemma set_group_vol_delta_not_applied :
  let out := parse_cmd MockRt.rt
               [("command", PStr "set_group"); ("id", PInt 0); ("vol_delta", PInt (-5))]
               (new MockRt.rt MockRt.init) in
  ~ (fst out = Ok PNone /\
     z_vol <$> zones (status (snd out)) = [-5; -5; -5; 0; 0; 0]).
Proof.
  cbv zeta. intros [Hr _]. vm_compute in Hr. discriminate Hr.
Qed.

(** ** Merging an update *)

Section Merge.
Context `{Builtins}.

Lemma py_str_arg (field : option string) (cur : string) :
  py_str (updated_val (arg PStr field) (PStr cur)) = default cur field.
Proof. destruct field; reflexivity. Qed.

Lemma py_bool_arg (field : option bool) (cur : bool) :
  py_bool (updated_val (arg PBool field) (PBool cur)) = default cur field.
Proof. destruct field; reflexivity. Qed.

(** [parse_int] answers the integer it was given, and only when it is
    one of the options. *)
Lemma parse_int_Ok (i : pyval) (o : options) (n : Z) :
  parse_int i o = Ok n -> py_int i = Ok n /\ py_in n o = true.
Proof.
  unfold parse_int. destruct (py_int i) as [m|e] eqn:Hi; [|discriminate].
  destruct (py_in m o) eqn:Hin; [|discriminate].
  intros Hn. injection Hn as <-. split; [reflexivity | assumption].
Qed.

Lemma parse_int_arg (field : option Z) (cur : Z) (o : options) (n : Z) :
  parse_int (updated_val (arg PInt field) (PInt cur)) o = Ok n ->
  n = default cur field.
Proof.
  intros Hp. apply parse_int_Ok in Hp as [Hi _].
  destruct field; simpl in *; congruence.
Qed.

Lemma parse_int_PInt (n : Z) (o : options) :
  parse_int (PInt n) o = if py_in n o then Ok n else
    Raise (ValueError (pretty n +:+ " is not in [" +:+ str_options o +:+ "]")).
Proof. reflexivity. Qed.

End Merge.

(** C4: whenever [set_power], [set_source] or [set_zone] commits, the
    entity it addressed is the merge of the update over its current
    value: each field absent from the update (passed as [None]) keeps its
    current value and each field supplied replaces it; the rest of the
    status is as before. *)
Theorem sparse_update_merge `{Builtins} (R : Runtime) (self self' : EthAudioApi R)
    (id : pyval) (pu : PowerUpdate) (su : SourceUpdate) (zu : ZoneUpdate) :
  (set_power R (arg PBool (u_audio_power pu)) (arg PBool (u_usb_power pu)) self
     = (Ok PNone, self') ->
   status self' = with_power (spec_merge_power (power (status self)) pu) (status self)) /\
  (set_source R id (arg PStr (u_s_name su)) (arg PBool (u_digital su)) self
     = (Ok PNone, self') ->
   exists idx src,
     find_idx s_id (sources (status self)) id = Some idx /\
     sources (status self) !! idx = Some src /\
     status self' =
       with_sources (<[idx := spec_merge_source src su]> (sources (status self)))
                    (status self)) /\
  (set_zone R id (arg PStr (u_name zu)) (arg PInt (u_source_id zu))
            (arg PBool (u_mute zu)) (arg PBool (u_stby zu)) (arg PInt (u_vol zu))
            (arg PBool (u_disabled zu)) self
     = (Ok PNone, self') ->
   exists idx z,
     find_idx z_id (zones (status self)) id = Some idx /\
     zones (status self) !! idx = Some z /\
     status self' =
       with_zones (<[idx := spec_merge_zone z zu]> (zones (status self))) (status self)).
Proof.
  split; [|split].
  - rewrite set_power_eq. cbv zeta.
    destruct (rt_set_power R _ _ (_rt self)) as [[] rt']; [|discriminate].
    intros E. injection E as <-. rewrite !py_bool_arg. reflexivity.
  - rewrite set_source_eq.
    destruct (find_idx s_id _ id) as [idx|]; [|discriminate].
    destruct (sources (status self) !! idx) as [src|] eqn:Hs; [|discriminate].
    cbv zeta. destruct (rt_set_source R _ _ (_rt self)) as [[] rt']; [|discriminate].
    intros E. injection E as <-. exists idx, src.
    split; [reflexivity | split; [exact Hs|]].
    rewrite py_str_arg, py_bool_arg. reflexivity.
  - rewrite set_zone_eq.
    destruct (find_idx z_id _ id) as [idx|]; [|discriminate].
    destruct (zones (status self) !! idx) as [z|] eqn:Hz; [|discriminate].
    cbv zeta.
    destruct (parse_int (updated_val (arg PInt (u_source_id zu)) _) _) as [sid|e] eqn:Hsid;
      [|discriminate].
    destruct (parse_int (updated_val (arg PInt (u_vol zu)) _) _) as [v|e] eqn:Hv;
      [|discriminate].
    destruct (rt_set_zone R _ _ _ _ _ _ (_rt self)) as [[] rt']; [|discriminate].
    intros E. injection E as <-. exists idx, z.
    split; [reflexivity | split; [exact Hz|]].
    rewrite py_str_arg, !py_bool_arg.
    rewrite (parse_int_arg _ _ _ _ Hsid), (parse_int_arg _ _ _ _ Hv). reflexivity.
Qed.

(** ** Validation of [source_id] *)


(** C1, on the code: on a fresh controller over the mock, asking zone 0
    for [source_id = 4] is accepted and committed, and asking it for
    [source_id = 0] is refused. *)
Theorem set_zone_source_id_4_accepted `{Builtins} :
  let self := new MockRt.rt MockRt.init in
  let out4 := set_zone MockRt.rt (PInt 0) PNone (PInt 4) PNone PNone PNone PNone self in
  let out0 := set_zone MockRt.rt (PInt 0) PNone (PInt 0) PNone PNone PNone PNone self in
  fst out4 = Ok PNone /\
  z_source_id <$> zones (status (snd out4)) !! 0%nat = Some 4 /\
  fst out0 = Ok (error "set zone0 is not in [[1, 2, 3, 4]]") /\
  status (snd out0) = status self.
Proof. cbv zeta. repeat split. Qed.

(** What does hold along every session: the [source_id] of every zone
    stays within 0..4. *)
Lemma zone_source_id_within_0_4 `{Builtins} (R : Runtime) (cmds : list dict)
    (rt : rt_state R) :
  Forall (fun z => 0 <= z_source_id z <= 4)
         (zones (status (snd (run_cmds R cmds (new R rt))))).
Proof.
  apply (run_cmds_preserves R (fun st => Forall (fun z => 0 <= z_source_id z <= 4) (zones st))).
  - intros a u self HP. rewrite set_power_eq. cbv zeta.
    destruct (rt_set_power R _ _ (_rt self)) as [[] rt']; exact HP.
  - intros i n d self HP. rewrite set_source_eq.
    destruct (find_idx s_id _ i) as [idx|]; [|exact HP].
    destruct (sources (status self) !! idx) as [src|]; [|exact HP].
    cbv zeta. destruct (rt_set_source R _ _ (_rt self)) as [[] rt']; exact HP.
  - intros i n s m sb v d self HP. rewrite set_zone_eq.
    destruct (find_idx z_id _ i) as [idx|]; [|exact HP].
    destruct (zones (status self) !! idx) as [z|]; [|exact HP].
    cbv zeta.
    destruct (parse_int (updated_val s _) _) as [sid|e] eqn:Hsid; [|exact HP].
    destruct (parse_int (updated_val v _) _) as [v'|e]; [|exact HP].
    destruct (rt_set_zone R _ _ _ _ _ _ (_rt self)) as [[] rt']; [|exact HP].
    simpl. apply Forall_insert; [exact HP|]. simpl.
    apply parse_int_Ok in Hsid as [_ Hin]. simpl in Hin.
    rewrite !orb_true_iff, !Z.eqb_eq in Hin. lia.
  - simpl. repeat constructor; simpl; lia.
Qed.

(** C2, on the code: the one-command session that asks zone 0 for
    [source_id = 4] starts from a status whose zones all have a source id
    in 0..3 and ends in one where zone 0 has source id 4. *)
Theorem zone_source_id_leaves_0_3 `{Builtins} :
  let self := new MockRt.rt MockRt.init in
  let cmd := set_zone_cmd (PInt 0) PNone (PInt 4) PNone PNone PNone PNone in
  let out := run_cmds MockRt.rt [cmd] self in
  Forall (fun z => valid_source_id (z_source_id z) = true) (zones (status self)) /\
  fst out = [Ok PNone] /\
  ~ Forall (fun z => valid_source_id (z_source_id z) = true) (zones (status (snd out))).
Proof.
  cbv zeta. split; [|split].
  - repeat constructor.
  - reflexivity.
  - intros Hall. apply Forall_inv in Hall. vm_compute in Hall. discriminate Hall.
Qed.

(** ** Runs on concrete inputs *)

(** C4 at work: powering the audio on, renaming source 1, and routing,
    muting and lowering zone 3, each with the other fields left out. *)
Lemma sparse_update_merge_witness :
  let self := new MockRt.rt MockRt.init in
  let no_pu := {| u_audio_power := None; u_usb_power := None |} in
  let no_su := {| u_s_name := None; u_digital := None |} in
  let no_zu := {| u_name := None; u_source_id := None; u_mute := None;
                  u_stby := None; u_vol := None; u_disabled := None |} in
  let pu := {| u_audio_power := Some true; u_usb_power := None |} in
  let su := {| u_s_name := Some "cd player"; u_digital := None |} in
  let zu := {| u_name := None; u_source_id := Some 2; u_mute := Some true;
               u_stby := None; u_vol := Some (-30); u_disabled := None |} in
  status (snd (set_power MockRt.rt (PBool true) PNone self))
    = with_power (spec_merge_power (power (status self)) pu) (status self) /\
  (exists idx src,
     find_idx s_id (sources (status self)) (PInt 1) = Some idx /\
     sources (status self) !! idx = Some src /\
     status (snd (set_source MockRt.rt (PInt 1) (PStr "cd player") PNone self)) =
       with_sources (<[idx := spec_merge_source src su]> (sources (status self)))
                    (status self)) /\
  (exists idx z,
     find_idx z_id (zones (status self)) (PInt 3) = Some idx /\
     zones (status self) !! idx = Some z /\
     status (snd (set_zone MockRt.rt (PInt 3) PNone (PInt 2) (PBool true) PNone
                           (PInt (-30)) PNone self)) =
       with_zones (<[idx := spec_merge_zone z zu]> (zones (status self))) (status self)).
Proof.
  intros self no_pu no_su no_zu pu su zu. split; [|split].
  - exact (proj1 (sparse_update_merge MockRt.rt self
                    (snd (set_power MockRt.rt (PBool true) PNone self))
                    PNone pu no_su no_zu) eq_refl).
  - exact (proj1 (proj2 (sparse_update_merge MockRt.rt self
                    (snd (set_source MockRt.rt (PInt 1) (PStr "cd player") PNone self))
                    (PInt 1) no_pu su no_zu)) eq_refl).
  - exact (proj2 (proj2 (sparse_update_merge MockRt.rt self
                    (snd (set_zone MockRt.rt (PInt 3) PNone (PInt 2) (PBool true) PNone
                                   (PInt (-30)) PNone self))
                    (PInt 3) no_pu no_su zu)) eq_refl).
Defined.

(** C5 at work: over a runtime that fails for zone 1 only, routing zone 1
    to source 2 is refused with the status untouched; and the power and
    source calls over [RpiRt]. *)
Lemma runtime_failure_not_committed_witness :
  let rpi := new RpiRt.rt RpiRt.init in
  let flaky := new zone_1_fails_rt tt in
  rejected rpi (set_power RpiRt.rt (PBool true) PNone rpi) /\
  rejected rpi (set_source RpiRt.rt (PInt 0) (PStr "cd player") (PBool true) rpi) /\
  rejected flaky (set_zone zone_1_fails_rt (PInt 1) PNone (PInt 2) PNone PNone PNone PNone
                           flaky).
Proof.
  intros rpi flaky. split; [|split].
  - apply (proj1 (runtime_failure_not_committed RpiRt.rt rpi
                    PNone PNone PNone PNone PNone PNone PNone PNone (PBool true) PNone)).
    reflexivity.
  - apply (proj1 (proj2 (runtime_failure_not_committed RpiRt.rt rpi
                    (PInt 0) (PStr "cd player") PNone PNone PNone PNone PNone (PBool true)
                    PNone PNone))).
    intros idx src _ _. reflexivity.
  - apply (proj2 (proj2 (runtime_failure_not_committed zone_1_fails_rt flaky
                    (PInt 1) PNone (PInt 2) PNone PNone PNone PNone PNone PNone PNone))).
    intros idx z sid v Hf _ _ _. vm_compute in Hf. injection Hf as <-. reflexivity.
Defined.

(** C9 at work: a command without ['command'], a [set_power] without
    ['usb_power'], and a command named "reboot". *)
Lemma parse_cmd_total_witness :
  let self := new MockRt.rt MockRt.init in
  rejected self (parse_cmd MockRt.rt [("id", PInt 0)] self) /\
  rejected self (parse_cmd MockRt.rt
                   [("command", PStr "set_power"); ("audio_power", PBool true)] self) /\
  rejected self (parse_cmd MockRt.rt [("command", PStr "reboot")] self).
Proof.
  cbv zeta. split; [|split].
  - apply (proj1 (proj2 (parse_cmd_total MockRt.rt [("id", PInt 0)]
                           (new MockRt.rt MockRt.init)))).
    reflexivity.
  - apply (proj1 (proj2 (proj2 (parse_cmd_total MockRt.rt
                   [("command", PStr "set_power"); ("audio_power", PBool true)]
                   (new MockRt.rt MockRt.init)))) "set_power" "usb_power").
    + reflexivity.
    + vm_compute. apply list_elem_of_further, list_elem_of_here.
    + reflexivity.
  - apply (proj2 (proj2 (proj2 (parse_cmd_total MockRt.rt [("command", PStr "reboot")]
                   (new MockRt.rt MockRt.init)))) (PStr "reboot")); reflexivity.
Defined.

(** C7 at work: lowering group 0 by 5. *)
Lemma set_group_unimplemented_witness :
  parse_cmd MockRt.rt
    [("command", PStr "set_group"); ("id", PInt 0); ("vol_delta", PInt (-5))]
    (new MockRt.rt MockRt.init)
  = (Ok (error "set_group unimplemented"), new MockRt.rt MockRt.init).
Proof.
  apply (set_group_unimplemented MockRt.rt). reflexivity.
Defined.

(** * Further properties of the controller *)

(** ** The lookup loop, continued *)

Section FindIdxMore.
Context `{Builtins} {A : Type} (get_id : A -> Z).

(** The loop only looks at the ids. *)
Lemma find_idx_fmap (l : list A) (id : pyval) :
  find_idx get_id l id = find_idx (fun n : Z => n) (get_id <$> l) id.
Proof.
  induction l as [|x l IH] using rev_ind.
  - reflexivity.
  - rewrite fmap_app. simpl. rewrite !find_idx_snoc, IH, length_fmap. reflexivity.
Qed.

Lemma find_idx_same_ids (l1 l2 : list A) (id : pyval) :
  get_id <$> l1 = get_id <$> l2 ->
  find_idx get_id l1 id = find_idx get_id l2 id.
Proof. intros E. rewrite (find_idx_fmap l1), (find_idx_fmap l2), E. reflexivity. Qed.

(** Replacing an entry by one with the same id changes no id. *)
Lemma fmap_insert_same_id (l : list A) (idx : nat) (x y : A) :
  l !! idx = Some x -> get_id y = get_id x ->
  get_id <$> <[idx := y]> l = get_id <$> l.
Proof.
  intros Hx Hid. rewrite list_fmap_insert. apply list_insert_id.
  rewrite list_lookup_fmap, Hx, Hid. reflexivity.
Qed.

End FindIdxMore.

(** ** What an operation leaves alone *)

Section Frame.
Context `{Builtins} (R : Runtime).

Lemma set_power_frame (self : EthAudioApi R) (audio_power usb_power : pyval) :
  let st' := status (snd (set_power R audio_power usb_power self)) in
  sources st' = sources (status self) /\
  zones st' = zones (status self) /\
  groups st' = groups (status self).
Proof.
  cbv zeta. rewrite set_power_eq. cbv zeta.
  destruct (rt_set_power R _ _ (_rt self)) as [[] rt']; repeat split.
Qed.

Lemma set_source_frame (self : EthAudioApi R) (id name digital : pyval) :
  let st' := status (snd (set_source R id name digital self)) in
  power st' = power (status self) /\
  zones st' = zones (status self) /\
  groups st' = groups (status self) /\
  s_id <$> sources st' = s_id <$> sources (status self).
Proof.
  cbv zeta. rewrite set_source_eq.
  destruct (find_idx s_id _ id) as [idx|]; [|repeat split].
  destruct (sources (status self) !! idx) as [src|] eqn:Hs; [|repeat split].
  cbv zeta. destruct (rt_set_source R _ _ (_rt self)) as [[] rt']; [|repeat split].
  split; [reflexivity | split; [reflexivity | split; [reflexivity|]]].
  simpl. eapply fmap_insert_same_id; [exact Hs | reflexivity].
Qed.

Lemma set_zone_frame (self : EthAudioApi R)
    (id name source_id mute stby vol disabled : pyval) :
  let st' := status (snd (set_zone R id name source_id mute stby vol disabled self)) in
  power st' = power (status self) /\
  sources st' = sources (status self) /\
  groups st' = groups (status self) /\
  z_id <$> zones st' = z_id <$> zones (status self).
Proof.
  cbv zeta. rewrite set_zone_eq.
  destruct (find_idx z_id _ id) as [idx|]; [|repeat split].
  destruct (zones (status self) !! idx) as [z|] eqn:Hz; [|repeat split].
  cbv zeta.
  destruct (parse_int (updated_val source_id _) _) as [sid|e]; [|repeat split].
  destruct (parse_int (updated_val vol _) _) as [v|e]; [|repeat split].
  destruct (rt_set_zone R _ _ _ _ _ _ (_rt self)) as [[] rt']; [|repeat split].
  split; [reflexivity | split; [reflexivity | split; [reflexivity|]]].
  simpl. eapply fmap_insert_same_id; [exact Hz | reflexivity].
Qed.

(** X5: [set_power] touches only the power entry; [set_source] leaves the
    power entry, the zones, the groups and every source id alone;
    [set_zone] leaves the power entry, the sources, the groups and every
    zone id alone.  This holds whether the call succeeds or not. *)
Theorem operations_frame (self : EthAudioApi R)
    (id name source_id mute stby vol disabled digital audio_power usb_power : pyval) :
  let st := status self in
  let st_p := status (snd (set_power R audio_power usb_power self)) in
  let st_s := status (snd (set_source R id name digital self)) in
  let st_z := status (snd (set_zone R id name source_id mute stby vol disabled self)) in
  (sources st_p = sources st /\ zones st_p = zones st /\ groups st_p = groups st) /\
  (power st_s = power st /\ zones st_s = zones st /\ groups st_s = groups st /\
   s_id <$> sources st_s = s_id <$> sources st) /\
  (power st_z = power st /\ sources st_z = sources st /\ groups st_z = groups st /\
   z_id <$> zones st_z = z_id <$> zones st).
Proof.
  cbv zeta. split; [|split].
  - apply set_power_frame.
  - apply set_source_frame.
  - apply set_zone_frame.
Qed.

(** [set_zone] keeps every volume within -79..0. *)
Lemma set_zone_keeps_vol_range (self : EthAudioApi R)
    (id name source_id mute stby vol disabled : pyval) :
  Forall (fun z => -79 <= z_vol z <= 0) (zones (status self)) ->
  Forall (fun z => -79 <= z_vol z <= 0)
         (zones (status (snd (set_zone R id name source_id mute stby vol disabled self)))).
Proof.
  intros HP. rewrite set_zone_eq.
  destruct (find_idx z_id _ id) as [idx|]; [|exact HP].
  destruct (zones (status self) !! idx) as [z|]; [|exact HP].
  cbv zeta.
  destruct (parse_int (updated_val source_id _) _) as [sid|e]; [|exact HP].
  destruct (parse_int (updated_val vol _) _) as [v|e] eqn:Hv; [|exact HP].
  destruct (rt_set_zone R _ _ _ _ _ _ (_rt self)) as [[] rt']; [|exact HP].
  simpl. apply Forall_insert; [exact HP|]. simpl.
  apply parse_int_Ok in Hv as [_ Hin]. simpl in Hin.
  apply andb_prop in Hin as [Hlo Hhi].
  apply Z.leb_le in Hlo. apply Z.ltb_lt in Hhi. lia.
Qed.

End Frame.

(** ** What every session keeps *)

(** The ids along a session. *)
Lemma session_ids `{Builtins} (R : Runtime) (cmds : list dict) (rt : rt_state R) :
  let st := status (snd (run_cmds R cmds (new R rt))) in
  z_id <$> zones st = [0; 1; 2; 3; 4; 5] /\ s_id <$> sources st = [0; 1; 2; 3].
Proof.
  cbv zeta.
  apply (run_cmds_preserves R (fun st =>
           z_id <$> zones st = [0; 1; 2; 3; 4; 5] /\ s_id <$> sources st = [0; 1; 2; 3])).
  - intros a u self (Hz & Hs).
    destruct (set_power_frame R self a u) as (Es & Ez & _). cbv zeta in *.
    rewrite Ez, Es. auto.
  - intros i n d self (Hz & Hs).
    destruct (set_source_frame R self i n d) as (_ & Ez & _ & Ei). cbv zeta in *.
    rewrite Ez, Ei. auto.
  - intros i n s m sb v d self (Hz & Hs).
    destruct (set_zone_frame R self i n s m sb v d) as (_ & Es & _ & Ei). cbv zeta in *.
    rewrite Ei, Es. auto.
  - split; reflexivity.
Qed.

(** X6: whatever the runtime and whatever the commands, a session started
    on a fresh controller ends with the zone ids 0..5 in order, the source
    ids 0..3 in order, and the three groups it started with. *)
Theorem session_keeps_ids_and_groups `{Builtins} (R : Runtime) (cmds : list dict)
    (rt : rt_state R) :
  let st := status (snd (run_cmds R cmds (new R rt))) in
  z_id <$> zones st = [0; 1; 2; 3; 4; 5] /\
  s_id <$> sources st = [0; 1; 2; 3] /\
  groups st = groups initial_status.
Proof.
  cbv zeta. destruct (session_ids R cmds rt) as (Hz & Hs). cbv zeta in *.
  split; [exact Hz | split; [exact Hs|]].
  apply (run_cmds_preserves R (fun st => groups st = groups initial_status)).
  - intros a u self Hg.
    destruct (set_power_frame R self a u) as (_ & _ & Eg). cbv zeta in *. congruence.
  - intros i n d self Hg.
    destruct (set_source_frame R self i n d) as (_ & _ & Eg & _). cbv zeta in *. congruence.
  - intros i n s m sb v d self Hg.
    destruct (set_zone_frame R self i n s m sb v d) as (_ & _ & Eg & _). cbv zeta in *.
    congruence.
  - reflexivity.
Qed.

(** X7: whatever the runtime and whatever the commands, every zone's
    volume stays within -79..0 and every zone's source id within 0..4. *)
Theorem session_keeps_zone_ranges `{Builtins} (R : Runtime) (cmds : list dict)
    (rt : rt_state R) :
  Forall (fun z => -79 <= z_vol z <= 0 /\ 0 <= z_source_id z <= 4)
         (zones (status (snd (run_cmds R cmds (new R rt))))).
Proof.
  apply Forall_and. split; [|apply zone_source_id_within_0_4].
  apply (run_cmds_preserves R (fun st => Forall (fun z => -79 <= z_vol z <= 0) (zones st))).
  - intros a u self HP.
    destruct (set_power_frame R self a u) as (_ & Ez & _). cbv zeta in *.
    rewrite Ez. exact HP.
  - intros i n d self HP.
    destruct (set_source_frame R self i n d) as (_ & Ez & _). cbv zeta in *.
    rewrite Ez. exact HP.
  - intros i n s m sb v d self HP. apply set_zone_keeps_vol_range. exact HP.
  - simpl. repeat constructor; simpl; lia.
Qed.

(** ** Addressing an entity *)

(** X8: at any point of a session started on a fresh controller, the id
    [k] addresses the zone at position [k] when 0 <= k <= 5 and no zone
    otherwise, and the source at position [k] when 0 <= k <= 3 and no
    source otherwise. *)
Theorem ids_address_positions `{Builtins} (R : Runtime) (cmds : list dict)
    (rt : rt_state R) (k : Z) :
  let st := status (snd (run_cmds R cmds (new R rt))) in
  find_idx z_id (zones st) (PInt k) =
    (if (0 <=? k) && (k <=? 5) then Some (Z.to_nat k) else None) /\
  find_idx s_id (sources st) (PInt k) =
    (if (0 <=? k) && (k <=? 3) then Some (Z.to_nat k) else None).
Proof.
  cbv zeta.
  destruct (session_ids R cmds rt) as (Hz & Hs). cbv zeta in *.
  rewrite (find_idx_fmap z_id), (find_idx_fmap s_id), Hz, Hs.
  unfold find_idx. simpl.
  split.
  - destruct (Z.eqb_spec k 5) as [->|]; [reflexivity|].
    destruct (Z.eqb_spec k 4) as [->|]; [reflexivity|].
    destruct (Z.eqb_spec k 3) as [->|]; [reflexivity|].
    destruct (Z.eqb_spec k 2) as [->|]; [reflexivity|].
    destruct (Z.eqb_spec k 1) as [->|]; [reflexivity|].
    destruct (Z.eqb_spec k 0) as [->|]; [reflexivity|].
    destruct ((0 <=? k) && (k <=? 5)) eqn:E; [|reflexivity].
    apply andb_prop in E as [E1 E2]. apply Z.leb_le in E1, E2. lia.
  - destruct (Z.eqb_spec k 3) as [->|]; [reflexivity|].
    destruct (Z.eqb_spec k 2) as [->|]; [reflexivity|].
    destruct (Z.eqb_spec k 1) as [->|]; [reflexivity|].
    destruct (Z.eqb_spec k 0) as [->|]; [reflexivity|].
    destruct ((0 <=? k) && (k <=? 3)) eqn:E; [|reflexivity].
    apply andb_prop in E as [E1 E2]. apply Z.leb_le in E1, E2. lia.
Qed.

(** X9: an id is compared with [==], as a number.  A boolean addresses
    the same entity as 0 or 1, and a float that is equal to an integer
    (1.0, say) the same entity as that integer.  [None], a string, a list,
    a dictionary, or a float equal to no integer addresses nothing: the
    operation answers "index None out of bounds" and leaves the object,
    runtime included, as it was. *)
Theorem id_is_compared_as_a_number `{Builtins} (R : Runtime) (self : EthAudioApi R)
    (name source_id mute stby vol disabled digital : pyval) :
  (forall b : bool,
     set_zone R (PBool b) name source_id mute stby vol disabled self =
     set_zone R (PInt (Z.b2z b)) name source_id mute stby vol disabled self /\
     set_source R (PBool b) name digital self =
     set_source R (PInt (Z.b2z b)) name digital self) /\
  (forall (f : pyfloat) (n : Z),
     float_as_int f = Some n ->
     set_zone R (PFloat f) name source_id mute stby vol disabled self =
     set_zone R (PInt n) name source_id mute stby vol disabled self /\
     set_source R (PFloat f) name digital self =
     set_source R (PInt n) name digital self) /\
  (forall id : pyval,
     match id with
     | PNone | PStr _ | PList _ | PDict _ => True
     | PFloat f => float_as_int f = None
     | PBool _ | PInt _ => False
     end ->
     set_zone R id name source_id mute stby vol disabled self =
       (Ok (error "set zone: index None out of bounds"), self) /\
     set_source R id name digital self =
       (Ok (error "set source: index None out of bounds"), self)).
Proof.
  assert (Hsame : forall id1 id2,
            (forall z, py_eq_int id1 z = py_eq_int id2 z) ->
            forall {A} (g : A -> Z) (l : list A), find_idx g l id1 = find_idx g l id2).
  { intros id1 id2 Heq A g l. induction l as [|x l IH] using rev_ind; [reflexivity|].
    rewrite !find_idx_snoc, IH, Heq. reflexivity. }
  split; [|split].
  - intros b.
    rewrite !set_zone_eq, !set_source_eq,
      !(Hsame (PBool b) (PInt (Z.b2z b)) (fun z => eq_refl)).
    split; reflexivity.
  - intros f n Hf.
    assert (Heq : forall z, py_eq_int (PFloat f) z = py_eq_int (PInt n) z).
    { intros z. simpl. rewrite Hf. reflexivity. }
    rewrite !set_zone_eq, !set_source_eq, !(Hsame (PFloat f) (PInt n) Heq).
    split; reflexivity.
  - intros id Hid.
    assert (Hf : forall {A} (g : A -> Z) (l : list A), find_idx g l id = None).
    { intros A g l. apply find_idx_None, Forall_forall. intros x _.
      destruct id as [|b|n|f| | |]; try reflexivity; try contradiction.
      simpl. rewrite Hid. reflexivity. }
    rewrite set_zone_eq, set_source_eq, !Hf. split; reflexivity.
Qed.

(** X4: an id that no zone (resp. no source) carries makes [set_zone]
    (resp. [set_source]) answer "index None out of bounds"; the runtime is
    not called and nothing of the object changes. *)
Theorem unknown_id_rejected `{Builtins} (R : Runtime) (self : EthAudioApi R)
    (id name source_id mute stby vol disabled digital : pyval) :
  (Forall (fun z => py_eq_int id (z_id z) = false) (zones (status self)) ->
   set_zone R id name source_id mute stby vol disabled self =
     (Ok (error "set zone: index None out of bounds"), self)) /\
  (Forall (fun s => py_eq_int id (s_id s) = false) (sources (status self)) ->
   set_source R id name digital self =
     (Ok (error "set source: index None out of bounds"), self)).
Proof.
  split; intros Hall; apply find_idx_None in Hall.
  - rewrite set_zone_eq, Hall. reflexivity.
  - rewrite set_source_eq, Hall. reflexivity.
Qed.

(** ** Validation in [set_zone] *)

Lemma updated_val_None `{Builtins} (val : pyval) : updated_val PNone val = val.
Proof. reflexivity. Qed.

(** X3: when the addressed zone currently has a source id outside 1..4
    (0 after construction) and the update leaves [source_id] out,
    [set_zone] refuses the update whatever its other fields; the runtime
    is not called and nothing of the object changes. *)
Theorem set_zone_stuck_on_source_0 `{Builtins} (R : Runtime) (self : EthAudioApi R)
    (id name mute stby vol disabled : pyval) (idx : nat) (z : Zone) :
  find_idx z_id (zones (status self)) id = Some idx ->
  zones (status self) !! idx = Some z ->
  ~ 1 <= z_source_id z <= 4 ->
  set_zone R id name PNone mute stby vol disabled self =
    (Ok (error ("set zone" +:+ pretty (z_source_id z) +:+ " is not in [[1, 2, 3, 4]]")),
     self).
Proof.
  intros Hf Hz Hout. rewrite set_zone_eq, Hf, Hz. cbv zeta.
  rewrite updated_val_None, parse_int_PInt.
  assert (Hin : py_in (z_source_id z) (OList [1; 2; 3; 4]) = false).
  { apply not_true_is_false. intros Hin. apply Hout. simpl in Hin.
    rewrite !orb_true_iff, !Z.eqb_eq in Hin. lia. }
  rewrite Hin. reflexivity.
Qed.


(** [int] of a finite float is its integral part towards zero: [-79.5]
    gives [-79]. *)
Lemma py_int_float_example `{Builtins} :
  py_int (PFloat (FFinite true 159 (-1))) = Ok (-79).
Proof. reflexivity. Qed.

(** X2: over a runtime that succeeds, and for a zone whose source id is
    one of 1..4, [set_zone] takes a requested [vol] exactly when [int(vol)]
    is defined and lies in -79..0: an integer [v] exactly when
    -79 <= v <= 0, and a float exactly when its integral part towards zero
    does.  Any other [vol] is refused before the runtime is called, with
    nothing of the object changed. *)
Theorem set_zone_takes_vol_79_to_0 `{Builtins} (R : Runtime) (self : EthAudioApi R)
    (id vol : pyval) (idx : nat) (z : Zone) :
  find_idx z_id (zones (status self)) id = Some idx ->
  zones (status self) !! idx = Some z ->
  1 <= z_source_id z <= 4 ->
  (forall i sid m s v d, fst (rt_set_zone R i sid m s v d (_rt self)) = true) ->
  vol <> PNone ->
  let out := set_zone R id PNone PNone PNone PNone vol PNone self in
  (fst out = Ok PNone <-> exists n, py_int vol = Ok n /\ -79 <= n <= 0) /\
  (~ (exists n, py_int vol = Ok n /\ -79 <= n <= 0) -> snd out = self) /\
  (forall v : Z, vol = PInt v -> (fst out = Ok PNone <-> -79 <= v <= 0)).
Proof.
  intros Hf Hz Hs Hrt Hvol.
  assert (Hmain :
    let out := set_zone R id PNone PNone PNone PNone vol PNone self in
    (fst out = Ok PNone <-> exists n, py_int vol = Ok n /\ -79 <= n <= 0) /\
    (~ (exists n, py_int vol = Ok n /\ -79 <= n <= 0) -> snd out = self)).
  { cbv zeta. rewrite set_zone_eq, Hf, Hz. cbv zeta.
    rewrite !updated_val_None, parse_int_PInt.
    assert (Hsrc : py_in (z_source_id z) (OList [1; 2; 3; 4]) = true).
    { simpl. rewrite !orb_true_iff, !Z.eqb_eq. lia. }
    rewrite Hsrc.
    assert (Hupd : updated_val vol (PInt (z_vol z)) = vol).
    { unfold updated_val. destruct vol; try reflexivity. destruct Hvol. reflexivity. }
    rewrite Hupd. unfold parse_int.
    assert (Hin : forall n, py_in n (ORange (-79) 1) = true <-> -79 <= n <= 0).
    { intros n. simpl. rewrite andb_true_iff, Z.leb_le, Z.ltb_lt. lia. }
    destruct (py_int vol) as [n|e] eqn:Hn.
    - destruct (py_in n (ORange (-79) 1)) eqn:Hr.
      + match goal with |- context [rt_set_zone R ?i ?a ?m ?s ?b ?d ?st] =>
          specialize (Hrt i a m s b d); destruct (rt_set_zone R i a m s b d st) as [ok rt']
        end.
        simpl in Hrt. subst ok. simpl. split.
        * split; [intros _|reflexivity]. exists n. split; [reflexivity|]. apply Hin, Hr.
        * intros Hno. destruct Hno. exists n. split; [reflexivity|]. apply Hin, Hr.
      + simpl. split; [|reflexivity].
        split; [discriminate|]. intros (n' & Hn' & Hr'). injection Hn' as <-.
        apply Hin in Hr'. congruence.
    - simpl. split; [|reflexivity].
      split; [discriminate|]. intros (n' & Hn' & _). discriminate. }
  cbv zeta in *. destruct Hmain as [Hiff Hrej].
  split; [exact Hiff | split; [exact Hrej|]].
  intros v ->. rewrite Hiff. simpl. split.
  - intros (n & Hn & Hr). injection Hn as <-. exact Hr.
  - intros Hr. exists v. split; [reflexivity | exact Hr].
Qed.

(** ** What a committed operation did *)

Section Commit.
Context `{Builtins} (R : Runtime).

(** A [set_zone] that returned [None] found the zone, validated both
    numbers, was accepted by the runtime and stored one new entry. *)
Lemma set_zone_commit_inv id name source_id mute stby vol disabled
    (self self' : EthAudioApi R) :
  set_zone R id name source_id mute stby vol disabled self = (Ok PNone, self') ->
  exists idx z sid v,
    find_idx z_id (zones (status self)) id = Some idx /\
    zones (status self) !! idx = Some z /\
    parse_int (updated_val source_id (PInt (z_source_id z))) (OList [1; 2; 3; 4]) = Ok sid /\
    parse_int (updated_val vol (PInt (z_vol z))) (ORange (-79) 1) = Ok v /\
    let z' := {| z_id := z_id z;
                 z_name := py_str (updated_val name (PStr (z_name z)));
                 z_source_id := sid;
                 z_mute := py_bool (updated_val mute (PBool (z_mute z)));
                 z_stby := py_bool (updated_val stby (PBool (z_stby z)));
                 z_disabled := py_bool (updated_val disabled (PBool (z_disabled z)));
                 z_vol := v |} in
    rt_set_zone R (Z.of_nat idx) sid (z_mute z') (z_stby z') v (z_disabled z') (_rt self)
      = (true, _rt self') /\
    status self' = with_zones (<[idx := z']> (zones (status self))) (status self).
Proof.
  rewrite set_zone_eq.
  destruct (find_idx z_id _ id) as [idx|]; [|discriminate].
  destruct (zones (status self) !! idx) as [z|] eqn:Hz; [|discriminate].
  cbv zeta.
  destruct (parse_int (updated_val source_id _) _) as [sid|e] eqn:Hsid; [|discriminate].
  destruct (parse_int (updated_val vol _) _) as [v|e] eqn:Hv; [|discriminate].
  destruct (rt_set_zone R _ _ _ _ _ _ (_rt self)) as [[] rt'] eqn:Hrt; [|discriminate].
  intros E. injection E as <-. exists idx, z, sid, v.
  repeat (split; [first [reflexivity | assumption]|]). reflexivity.
Qed.

Lemma set_source_commit_inv id name digital (self self' : EthAudioApi R) :
  set_source R id name digital self = (Ok PNone, self') ->
  exists idx src,
    find_idx s_id (sources (status self)) id = Some idx /\
    sources (status self) !! idx = Some src /\
    let s' := {| s_id := s_id src;
                 s_name := py_str (updated_val name (PStr (s_name src)));
                 s_digital := py_bool (updated_val digital (PBool (s_digital src))) |} in
    rt_set_source R (Z.of_nat idx) (s_digital s') (_rt self) = (true, _rt self') /\
    status self' = with_sources (<[idx := s']> (sources (status self))) (status self).
Proof.
  rewrite set_source_eq.
  destruct (find_idx s_id _ id) as [idx|]; [|discriminate].
  destruct (sources (status self) !! idx) as [src|] eqn:Hs; [|discriminate].
  cbv zeta.
  destruct (rt_set_source R _ _ (_rt self)) as [[] rt'] eqn:Hrt; [|discriminate].
  intros E. injection E as <-. exists idx, src.
  repeat (split; [first [reflexivity | assumption]|]). reflexivity.
Qed.

Lemma set_power_commit_inv audio_power usb_power (self self' : EthAudioApi R) :
  set_power R audio_power usb_power self = (Ok PNone, self') ->
  let p := power (status self) in
  let p' := {| p_audio_power := py_bool (updated_val audio_power (PBool (p_audio_power p)));
               p_usb_power := py_bool (updated_val usb_power (PBool (p_usb_power p))) |} in
  rt_set_power R (p_audio_power p') (p_usb_power p') (_rt self) = (true, _rt self') /\
  status self' = with_power p' (status self).
Proof.
  rewrite set_power_eq. cbv zeta.
  destruct (rt_set_power R _ _ (_rt self)) as [[] rt'] eqn:Hrt; [|discriminate].
  intros E. injection E as <-. split; reflexivity.
Qed.

(** Merging the same update over its own result gives that result. *)
Lemma py_str_updated_twice (u : pyval) (cur : string) :
  py_str (updated_val u (PStr (py_str (updated_val u (PStr cur)))))
  = py_str (updated_val u (PStr cur)).
Proof. unfold updated_val. destruct (is_None u); reflexivity. Qed.

Lemma py_bool_updated_twice (u : pyval) (cur : bool) :
  py_bool (updated_val u (PBool (py_bool (updated_val u (PBool cur)))))
  = py_bool (updated_val u (PBool cur)).
Proof. unfold updated_val. destruct (is_None u); reflexivity. Qed.

Lemma parse_int_updated_twice (u : pyval) (cur n : Z) (o : options) :
  parse_int (updated_val u (PInt cur)) o = Ok n ->
  parse_int (updated_val u (PInt n)) o = Ok n.
Proof.
  intros Hp. pose proof (parse_int_Ok _ _ _ Hp) as [_ Hin].
  unfold updated_val in *. destruct (is_None u); [|exact Hp].
  rewrite parse_int_PInt, Hin. reflexivity.
Qed.

End Commit.

(** X14: when an operation commits, the runtime has been called once, on
    the runtime state the operation started with, with exactly the values
    the status now shows for the entity (and its position as id), and it
    answered [True]: the status and the hardware were told the same. *)
Theorem commit_matches_runtime_call `{Builtins} (R : Runtime) (self self' : EthAudioApi R)
    (id name source_id mute stby vol disabled digital audio_power usb_power : pyval) :
  (set_power R audio_power usb_power self = (Ok PNone, self') ->
   let p' := power (status self') in
   rt_set_power R (p_audio_power p') (p_usb_power p') (_rt self) = (true, _rt self')) /\
  (set_source R id name digital self = (Ok PNone, self') ->
   exists idx s',
     find_idx s_id (sources (status self)) id = Some idx /\
     sources (status self') !! idx = Some s' /\
     rt_set_source R (Z.of_nat idx) (s_digital s') (_rt self) = (true, _rt self')) /\
  (set_zone R id name source_id mute stby vol disabled self = (Ok PNone, self') ->
   exists idx z',
     find_idx z_id (zones (status self)) id = Some idx /\
     zones (status self') !! idx = Some z' /\
     rt_set_zone R (Z.of_nat idx) (z_source_id z') (z_mute z') (z_stby z') (z_vol z')
                 (z_disabled z') (_rt self) = (true, _rt self')).
Proof.
  split; [|split].
  - intros E. apply set_power_commit_inv in E as [Hrt Hst]. cbv zeta in *.
    rewrite Hst. exact Hrt.
  - intros E. apply set_source_commit_inv in E as (idx & src & Hf & Hs & Hrt & Hst).
    cbv zeta in *. eexists idx, _. split; [exact Hf|]. split.
    + rewrite Hst. simpl. apply list_lookup_insert_eq. eapply lookup_lt_Some; exact Hs.
    + exact Hrt.
  - intros E.
    apply set_zone_commit_inv in E as (idx & z & sid & v & Hf & Hz & _ & _ & Hrt & Hst).
    cbv zeta in *. eexists idx, _. split; [exact Hf|]. split.
    + rewrite Hst. simpl. apply list_lookup_insert_eq. eapply lookup_lt_Some; exact Hz.
    + exact Hrt.
Qed.

(** X11: repeating a committed call changes nothing more.  If an
    operation commits and the same call, made again on the result,
    commits too, the status after the second call is the status after the
    first. *)
Theorem committed_call_idempotent `{Builtins} (R : Runtime) (self self1 self2 : EthAudioApi R)
    (id name source_id mute stby vol disabled digital audio_power usb_power : pyval) :
  (set_power R audio_power usb_power self = (Ok PNone, self1) ->
   set_power R audio_power usb_power self1 = (Ok PNone, self2) ->
   status self2 = status self1) /\
  (set_source R id name digital self = (Ok PNone, self1) ->
   set_source R id name digital self1 = (Ok PNone, self2) ->
   status self2 = status self1) /\
  (set_zone R id name source_id mute stby vol disabled self = (Ok PNone, self1) ->
   set_zone R id name source_id mute stby vol disabled self1 = (Ok PNone, self2) ->
   status self2 = status self1).
Proof.
  split; [|split].
  - intros E1 E2.
    apply set_power_commit_inv in E1 as [_ H1]. apply set_power_commit_inv in E2 as [_ H2].
    cbv zeta in *. rewrite H2, H1. simpl. rewrite !py_bool_updated_twice. reflexivity.
  - intros E1 E2.
    apply set_source_commit_inv in E1 as (idx & src & Hf & Hs & _ & H1).
    apply set_source_commit_inv in E2 as (idx2 & src2 & Hf2 & Hs2 & _ & H2).
    cbv zeta in *.
    assert (Hlen : (idx < length (sources (status self)))%nat)
      by (eapply lookup_lt_Some; exact Hs).
    rewrite H1 in Hf2, Hs2. simpl in Hf2, Hs2.
    rewrite (find_idx_same_ids s_id _ (sources (status self))) in Hf2
      by (eapply fmap_insert_same_id; [exact Hs | reflexivity]).
    assert (idx2 = idx) as -> by congruence.
    rewrite list_lookup_insert_eq in Hs2 by exact Hlen. injection Hs2 as <-.
    rewrite H2, H1. simpl.
    rewrite list_insert_insert_eq, py_str_updated_twice, py_bool_updated_twice. reflexivity.
  - intros E1 E2.
    apply set_zone_commit_inv in E1 as (idx & z & sid & v & Hf & Hz & Hsid & Hv & _ & H1).
    apply set_zone_commit_inv in E2 as (idx2 & z2 & sid2 & v2 & Hf2 & Hz2 & Hsid2 & Hv2 & _ & H2).
    cbv zeta in *.
    assert (Hlen : (idx < length (zones (status self)))%nat)
      by (eapply lookup_lt_Some; exact Hz).
    rewrite H1 in Hf2, Hz2. simpl in Hf2, Hz2.
    rewrite (find_idx_same_ids z_id _ (zones (status self))) in Hf2
      by (eapply fmap_insert_same_id; [exact Hz | reflexivity]).
    assert (idx2 = idx) as -> by congruence.
    rewrite list_lookup_insert_eq in Hz2 by exact Hlen. injection Hz2 as <-.
    simpl in Hsid2, Hv2.
    rewrite (parse_int_updated_twice _ _ _ _ Hsid) in Hsid2. injection Hsid2 as <-.
    rewrite (parse_int_updated_twice _ _ _ _ Hv) in Hv2. injection Hv2 as <-.
    rewrite H2, H1. simpl.
    rewrite list_insert_insert_eq, py_str_updated_twice, !py_bool_updated_twice. reflexivity.
Qed.

(** X13: [set_source] validates nothing but the id.  Over a runtime that
    succeeds, for a name that is left out or is a string and whatever
    [digital] is, it returns [None] exactly when some source carries the
    id. *)
Theorem set_source_checks_only_the_id `{Builtins} (R : Runtime) (self : EthAudioApi R)
    (id digital : pyval) (name : option string) :
  (forall i d, fst (rt_set_source R i d (_rt self)) = true) ->
  fst (set_source R id (arg PStr name) digital self) = Ok PNone <->
  Exists (fun s => py_eq_int id (s_id s) = true) (sources (status self)).
Proof.
  intros Hrt. rewrite set_source_eq.
  destruct (find_idx s_id _ id) as [idx|] eqn:Hf.
  - apply find_idx_Some in Hf as (src & Hs & Hm). rewrite Hs. cbv zeta.
    match goal with |- context [rt_set_source R ?i ?d ?st] =>
      specialize (Hrt i d); destruct (rt_set_source R i d st) as [ok rt'] end.
    simpl in Hrt. subst ok. simpl. split; [intros _|reflexivity].
    apply Exists_exists. exists src. split; [|exact Hm].
    eapply list_elem_of_lookup_2; exact Hs.
  - apply find_idx_None in Hf. simpl. split; [discriminate|].
    intros Hex. apply Exists_exists in Hex as (s & Hin & Hm).
    rewrite Forall_forall in Hf. rewrite (Hf s Hin) in Hm. discriminate.
Qed.

(** ** Command dispatch, continued *)

Section DispatchMore.
Context `{Builtins} (R : Runtime).

(** The handler of [parse_cmd] lets the outcome of an operation through. *)
Lemma handler_passes (m : M (EthAudioApi R) pyval) (self : EthAudioApi R) :
  atomic_outcome self (m self) ->
  (let (r, self') := m self in
   match r with
   | Ok a => (Ok a, self')
   | Raise e => ret (error (str_exn e)) self'
   end) = m self.
Proof.
  intros Ha. destruct (m self) as [[v|e] s']; [reflexivity|].
  destruct Ha as [Hn | (msg & Hm & _)]; discriminate.
Qed.

Lemma py_eq_str_true (v : pyval) (s : string) :
  py_eq_str v s = true -> v = PStr s.
Proof.
  destruct v; try discriminate. simpl. intros E.
  apply String.eqb_eq in E. congruence.
Qed.

End DispatchMore.

(** X10: a command that names one of the three operations and carries
    every key the operation reads behaves exactly as the direct call with
    the values bound to those keys; further keys are ignored. *)
Theorem parse_cmd_dispatches `{Builtins} (R : Runtime) (cmd : dict) (self : EthAudioApi R)
    (id name source_id mute stby vol disabled digital audio_power usb_power : pyval) :
  (dict_get cmd "command" = Some (PStr "set_power") ->
   dict_get cmd "audio_power" = Some audio_power ->
   dict_get cmd "usb_power" = Some usb_power ->
   parse_cmd R cmd self = set_power R audio_power usb_power self) /\
  (dict_get cmd "command" = Some (PStr "set_source") ->
   dict_get cmd "id" = Some id ->
   dict_get cmd "name" = Some name ->
   dict_get cmd "digital" = Some digital ->
   parse_cmd R cmd self = set_source R id name digital self) /\
  (dict_get cmd "command" = Some (PStr "set_zone") ->
   dict_get cmd "id" = Some id ->
   dict_get cmd "name" = Some name ->
   dict_get cmd "source_id" = Some source_id ->
   dict_get cmd "mute" = Some mute ->
   dict_get cmd "stby" = Some stby ->
   dict_get cmd "vol" = Some vol ->
   dict_get cmd "disabled" = Some disabled ->
   parse_cmd R cmd self = set_zone R id name source_id mute stby vol disabled self).
Proof.
  split; [|split].
  - intros Hc Ha Hu. unfold parse_cmd, try_except.
    rewrite getitem_bind, Hc. cbn [is_None py_eq_str String.eqb Ascii.eqb Bool.eqb].
    rewrite getitem_bind, Ha, getitem_bind, Hu.
    apply (handler_passes R (set_power R _ _)), set_power_atomic.
  - intros Hc Hi Hn Hd. unfold parse_cmd, try_except.
    rewrite getitem_bind, Hc. cbn [is_None py_eq_str String.eqb Ascii.eqb Bool.eqb].
    rewrite getitem_bind, Hi, getitem_bind, Hn, getitem_bind, Hd.
    apply (handler_passes R (set_source R _ _ _)), set_source_atomic.
  - intros Hc Hi Hn Hs Hm Hsb Hv Hd. unfold parse_cmd, try_except.
    rewrite getitem_bind, Hc. cbn [is_None py_eq_str String.eqb Ascii.eqb Bool.eqb].
    rewrite getitem_bind, Hi, getitem_bind, Hn, getitem_bind, Hs, getitem_bind, Hm,
      getitem_bind, Hsb, getitem_bind, Hv, getitem_bind, Hd.
    apply (handler_passes R (set_zone R _ _ _ _ _ _ _)), set_zone_atomic.
Qed.

(** X15: only [set_power], [set_source] and [set_zone] commands can
    change anything.  If [parse_cmd] leaves the object (status or runtime)
    different from what it was, the command named one of these three. *)
Theorem only_three_commands_mutate `{Builtins} (R : Runtime) (cmd : dict)
    (self : EthAudioApi R) :
  snd (parse_cmd R cmd self) <> self ->
  exists command,
    dict_get cmd "command" = Some (PStr command) /\
    command ∈ ["set_power"; "set_source"; "set_zone"].
Proof.
  unfold parse_cmd, try_except. rewrite getitem_bind.
  destruct (dict_get cmd "command") as [command|]; [|intros Hne; destruct Hne; reflexivity].
  destruct (is_None command); [intros Hne; destruct Hne; reflexivity|].
  destruct (py_eq_str command "return_state"); [intros Hne; destruct Hne; reflexivity|].
  destruct (py_eq_str command "set_power") eqn:Ep.
  { intros _. apply py_eq_str_true in Ep as ->. eexists. split; [reflexivity|].
    apply list_elem_of_here. }
  destruct (py_eq_str command "set_source") eqn:Es.
  { intros _. apply py_eq_str_true in Es as ->. eexists. split; [reflexivity|].
    apply list_elem_of_further, list_elem_of_here. }
  destruct (py_eq_str command "set_zone") eqn:Ez.
  { intros _. apply py_eq_str_true in Ez as ->. eexists. split; [reflexivity|].
    do 2 apply list_elem_of_further. apply list_elem_of_here. }
  repeat (match goal with |- context [py_eq_str command ?s] =>
            destruct (py_eq_str command s) end;
          [intros Hne; destruct Hne; reflexivity|]).
  intros Hne; destruct Hne; reflexivity.
Qed.

(** X12: a command that fails is invisible: [get_state] returns after it
    the document it returned before it, and [get_state] itself changes
    nothing. *)
Theorem failed_command_invisible `{Builtins} (R : Runtime) (cmd : dict)
    (self : EthAudioApi R) :
  fst (parse_cmd R cmd self) <> Ok PNone ->
  fst (get_state R (snd (parse_cmd R cmd self))) = fst (get_state R self) /\
  snd (get_state R self) = self.
Proof.
  intros Hfail. split; [|reflexivity].
  destruct (parse_cmd_atomic R cmd self) as [Hn | (msg & _ & Hst)]; [contradiction|].
  unfold get_state, gets. simpl. rewrite Hst. reflexivity.
Qed.

(** X16: a command that lacks several of the keys its operation reads is
    answered with the name, in quotes, of the first missing one in reading
    order, and changes nothing. *)
Theorem first_missing_key_reported `{Builtins} (R : Runtime) (cmd : dict)
    (command key : string) (self : EthAudioApi R) :
  dict_get cmd "command" = Some (PStr command) ->
  find (fun k => bool_decide (dict_get cmd k = None)) (argument_keys command) = Some key ->
  parse_cmd R cmd self = (Ok (error ("'" +:+ key +:+ "'")), self).
Proof.
  intros Hc Hk. unfold parse_cmd, try_except. rewrite getitem_bind, Hc.
  unfold argument_keys in Hk. cbn [is_None py_eq_str].
  destruct (String.eqb_spec command "set_power") as [->|_];
    [|destruct (String.eqb_spec command "set_source") as [->|_];
      [|destruct (String.eqb_spec command "set_zone") as [->|_]; [|discriminate]]].
  all: cbn [find] in Hk; cbn; revert Hk.
  all: repeat (match goal with |- context [getitem ?c ?k] =>
           rewrite (getitem_bind c k); destruct (dict_get c k) eqn:? end;
         [rewrite bool_decide_eq_false_2 by discriminate
         |rewrite bool_decide_eq_true_2 by reflexivity;
          intros Hk; injection Hk as <-; reflexivity]).
  all: discriminate.
Qed.

(** ** After a commit *)

(** X17: whatever the zone was before, a committed [set_zone] leaves the
    addressed zone with a source id in 1..4 and a volume in -79..0; no
    call can route a zone (back) to source 0. *)
Theorem committed_zone_in_range `{Builtins} (R : Runtime) (self self' : EthAudioApi R)
    (id name source_id mute stby vol disabled : pyval) :
  set_zone R id name source_id mute stby vol disabled self = (Ok PNone, self') ->
  exists idx z',
    find_idx z_id (zones (status self)) id = Some idx /\
    zones (status self') !! idx = Some z' /\
    1 <= z_source_id z' <= 4 /\ -79 <= z_vol z' <= 0.
Proof.
  intros E.
  apply set_zone_commit_inv in E as (idx & z & sid & v & Hf & Hz & Hsid & Hv & _ & Hst).
  cbv zeta in *. eexists idx, _. split; [exact Hf|]. split.
  - rewrite Hst. simpl. apply list_lookup_insert_eq. eapply lookup_lt_Some; exact Hz.
  - simpl. apply parse_int_Ok in Hsid as [_ Hs]. apply parse_int_Ok in Hv as [_ Hr].
    simpl in Hs, Hr. rewrite !orb_true_iff, !Z.eqb_eq in Hs.
    apply andb_prop in Hr as [Hlo Hhi]. apply Z.leb_le in Hlo. apply Z.ltb_lt in Hhi.
    split; lia.
Qed.

(** X18: [set_zone] changes at most the zone it addresses and
    [set_source] at most the source it addresses: every other entry of the
    list is the one that was there, whether the call succeeds or not. *)
Theorem other_entries_untouched `{Builtins} (R : Runtime) (self : EthAudioApi R)
    (id name source_id mute stby vol disabled digital : pyval) (idx j : nat) :
  j <> idx ->
  (find_idx z_id (zones (status self)) id = Some idx ->
   zones (status (snd (set_zone R id name source_id mute stby vol disabled self))) !! j
   = zones (status self) !! j) /\
  (find_idx s_id (sources (status self)) id = Some idx ->
   sources (status (snd (set_source R id name digital self))) !! j
   = sources (status self) !! j).
Proof.
  intros Hj. split; intros Hf.
  - rewrite set_zone_eq, Hf.
    destruct (zones (status self) !! idx) as [z|]; [|reflexivity]. cbv zeta.
    destruct (parse_int (updated_val source_id _) _) as [sid|e]; [|reflexivity].
    destruct (parse_int (updated_val vol _) _) as [v|e]; [|reflexivity].
    destruct (rt_set_zone R _ _ _ _ _ _ (_rt self)) as [[] rt']; [|reflexivity].
    simpl. apply list_lookup_insert_ne. congruence.
  - rewrite set_source_eq, Hf.
    destruct (sources (status self) !! idx) as [src|]; [|reflexivity]. cbv zeta.
    destruct (rt_set_source R _ _ (_rt self)) as [[] rt']; [|reflexivity].
    simpl. apply list_lookup_insert_ne. congruence.
Qed.

(** ** Further runs on concrete inputs *)


(** X2 at work: zone 0, once on source 2, asked for the volume -79.5,
    a float that [int] cuts to -79. *)
Lemma set_zone_takes_vol_79_to_0_witness :
  let self := snd (set_zone MockRt.rt (PInt 0) PNone (PInt 2) PNone PNone PNone PNone
                            (new MockRt.rt MockRt.init)) in
  let vol := PFloat (FFinite true 159 (-1)) in
  let out := set_zone MockRt.rt (PInt 0) PNone PNone PNone PNone vol PNone self in
  (fst out = Ok PNone <-> exists n, py_int vol = Ok n /\ -79 <= n <= 0) /\
  (~ (exists n, py_int vol = Ok n /\ -79 <= n <= 0) -> snd out = self) /\
  (forall v : Z, vol = PInt v -> (fst out = Ok PNone <-> -79 <= v <= 0)).
Proof.
  intros self vol.
  eapply (set_zone_takes_vol_79_to_0 MockRt.rt self (PInt 0) vol 0%nat _).
  - reflexivity.
  - reflexivity.
  - simpl. split; discriminate.
  - reflexivity.
  - discriminate.
Defined.

(** X3 at work: zone 0 of a fresh controller asked for the volume -10
    only. *)
Lemma set_zone_stuck_on_source_0_witness :
  set_zone MockRt.rt (PInt 0) PNone PNone PNone PNone (PInt (-10)) PNone
           (new MockRt.rt MockRt.init)
  = (Ok (error ("set zone" +:+ pretty 0 +:+ " is not in [[1, 2, 3, 4]]")),
     new MockRt.rt MockRt.init).
Proof.
  eapply (set_zone_stuck_on_source_0 MockRt.rt (new MockRt.rt MockRt.init)
            (PInt 0) PNone PNone PNone (PInt (-10)) PNone 0%nat
            {| z_id := 0; z_name := "Zone 1"; z_source_id := 0; z_mute := false;
               z_stby := false; z_disabled := false; z_vol := 0 |}).
  - reflexivity.
  - reflexivity.
  - simpl. intros [Hlo _]. apply Hlo. reflexivity.
Defined.

(** X4 at work: zone 6 and source 4 on a fresh controller. *)
Lemma unknown_id_rejected_witness :
  let self := new MockRt.rt MockRt.init in
  set_zone MockRt.rt (PInt 6) PNone (PInt 1) PNone PNone PNone PNone self =
    (Ok (error "set zone: index None out of bounds"), self) /\
  set_source MockRt.rt (PInt 4) (PStr "tuner") PNone self =
    (Ok (error "set source: index None out of bounds"), self).
Proof.
  intros self. split.
  - apply (proj1 (unknown_id_rejected MockRt.rt self (PInt 6) PNone (PInt 1) PNone PNone
                    PNone PNone PNone)).
    repeat constructor.
  - apply (proj2 (unknown_id_rejected MockRt.rt self (PInt 4) (PStr "tuner") PNone PNone
                    PNone PNone PNone PNone)).
    repeat constructor.
Defined.

(** X9 at work: the id sent as the float 1.0, and as the string "0". *)
Lemma id_is_compared_as_a_number_witness :
  let self := new MockRt.rt MockRt.init in
  (set_zone MockRt.rt (PFloat (FFinite false 1 0)) PNone (PInt 1) PNone PNone PNone PNone
            self =
   set_zone MockRt.rt (PInt 1) PNone (PInt 1) PNone PNone PNone PNone self /\
   set_source MockRt.rt (PFloat (FFinite false 1 0)) PNone PNone self =
   set_source MockRt.rt (PInt 1) PNone PNone self) /\
  (set_zone MockRt.rt (PStr "0") PNone (PInt 1) PNone PNone PNone PNone self =
     (Ok (error "set zone: index None out of bounds"), self) /\
   set_source MockRt.rt (PStr "0") PNone PNone self =
     (Ok (error "set source: index None out of bounds"), self)).
Proof.
  intros self.
  pose proof (id_is_compared_as_a_number MockRt.rt self PNone (PInt 1) PNone PNone
                PNone PNone PNone) as (_ & Hfloat & Hnone).
  split.
  - apply (Hfloat (FFinite false 1 0) 1). reflexivity.
  - apply (Hnone (PStr "0")). exact I.
Defined.

(** X10 at work: a [set_power] command with a key it does not read. *)
Lemma parse_cmd_dispatches_witness :
  let self := new MockRt.rt MockRt.init in
  parse_cmd MockRt.rt
    [("command", PStr "set_power"); ("note", PStr "evening");
     ("audio_power", PBool true); ("usb_power", PNone)] self
  = set_power MockRt.rt (PBool true) PNone self.
Proof.
  intros self.
  apply (proj1 (parse_cmd_dispatches MockRt.rt _ self PNone PNone PNone PNone PNone PNone
                  PNone PNone (PBool true) PNone)); reflexivity.
Defined.

(** X11 at work: zone 2 routed to source 3 and muted, twice. *)
Lemma committed_call_idempotent_witness :
  let self := new MockRt.rt MockRt.init in
  let self1 := snd (set_zone MockRt.rt (PInt 2) PNone (PInt 3) (PBool true) PNone PNone
                             PNone self) in
  let self2 := snd (set_zone MockRt.rt (PInt 2) PNone (PInt 3) (PBool true) PNone PNone
                             PNone self1) in
  status self2 = status self1.
Proof.
  intros self self1 self2.
  apply (proj2 (proj2 (committed_call_idempotent MockRt.rt self self1 self2
                         (PInt 2) PNone (PInt 3) (PBool true) PNone PNone PNone
                         PNone PNone PNone))); vm_compute; reflexivity.
Defined.

(** X12 at work: the empty command. *)
Lemma failed_command_invisible_witness :
  let self := new MockRt.rt MockRt.init in
  fst (get_state MockRt.rt (snd (parse_cmd MockRt.rt [] self)))
    = fst (get_state MockRt.rt self) /\
  snd (get_state MockRt.rt self) = self.
Proof.
  intros self. apply (failed_command_invisible MockRt.rt [] self).
  discriminate.
Defined.

(** X13 at work: source 3 renamed over the mock, with a list as
    [digital]. *)
Lemma set_source_checks_only_the_id_witness :
  let self := new MockRt.rt MockRt.init in
  fst (set_source MockRt.rt (PInt 3) (PStr "tuner") (PList []) self) = Ok PNone <->
  Exists (fun s => py_eq_int (PInt 3) (s_id s) = true) (sources (status self)).
Proof.
  intros self.
  apply (set_source_checks_only_the_id MockRt.rt self (PInt 3) (PList []) (Some "tuner")).
  reflexivity.
Defined.

(** X14 at work: zone 0 routed to source 2 over the mock. *)
Lemma commit_matches_runtime_call_witness :
  let self := new MockRt.rt MockRt.init in
  let self' := snd (set_zone MockRt.rt (PInt 0) PNone (PInt 2) PNone PNone PNone PNone
                             self) in
  exists idx z',
    find_idx z_id (zones (status self)) (PInt 0) = Some idx /\
    zones (status self') !! idx = Some z' /\
    MockRt.set_zone (Z.of_nat idx) (z_source_id z') (z_mute z') (z_stby z') (z_vol z')
                    (z_disabled z') (_rt self) = (true, _rt self').
Proof.
  intros self self'.
  apply (proj2 (proj2 (commit_matches_runtime_call MockRt.rt self self'
                         (PInt 0) PNone (PInt 2) PNone PNone PNone PNone PNone PNone PNone))).
  reflexivity.
Defined.

(** X15 at work: a [set_power] command that turns the audio power on. *)
Lemma only_three_commands_mutate_witness :
  let cmd := [("command", PStr "set_power"); ("audio_power", PBool true);
              ("usb_power", PNone)] in
  exists command,
    dict_get cmd "command" = Some (PStr command) /\
    command ∈ ["set_power"; "set_source"; "set_zone"].
Proof.
  intros cmd.
  apply (only_three_commands_mutate MockRt.rt cmd (new MockRt.rt MockRt.init)).
  intros E. vm_compute in E. discriminate E.
Defined.

(** X16 at work: a [set_zone] command that carries only the id. *)
Lemma first_missing_key_reported_witness :
  let self := new MockRt.rt MockRt.init in
  parse_cmd MockRt.rt [("command", PStr "set_zone"); ("id", PInt 0)] self
  = (Ok (error ("'" +:+ "name" +:+ "'")), self).
Proof.
  intros self.
  apply (first_missing_key_reported MockRt.rt _ "set_zone" "name" self); reflexivity.
Defined.

(** X17 at work: zone 5 routed to source 1 at volume -40. *)
Lemma committed_zone_in_range_witness :
  let self := new MockRt.rt MockRt.init in
  let self' := snd (set_zone MockRt.rt (PInt 5) PNone (PInt 1) PNone PNone (PInt (-40))
                             PNone self) in
  exists idx z',
    find_idx z_id (zones (status self)) (PInt 5) = Some idx /\
    zones (status self') !! idx = Some z' /\
    1 <= z_source_id z' <= 4 /\ -79 <= z_vol z' <= 0.
Proof.
  intros self self'.
  apply (committed_zone_in_range MockRt.rt self self' (PInt 5) PNone (PInt 1) PNone PNone
           (PInt (-40)) PNone).
  reflexivity.
Defined.

(** X18 at work: zone 1 routed to source 2; zone 4 and source 0 are looked
    at. *)
Lemma other_entries_untouched_witness :
  let self := new MockRt.rt MockRt.init in
  zones (status (snd (set_zone MockRt.rt (PInt 1) PNone (PInt 2) PNone PNone PNone PNone
                               self))) !! 4%nat
    = zones (status self) !! 4%nat /\
  sources (status (snd (set_source MockRt.rt (PInt 1) (PStr "radio") PNone self))) !! 0%nat
    = sources (status self) !! 0%nat.
Proof.
  intros self.
  assert (H41 : 4%nat <> 1%nat) by discriminate.
  assert (H01 : 0%nat <> 1%nat) by discriminate.
  split.
  - apply (proj1 (other_entries_untouched MockRt.rt self (PInt 1) PNone (PInt 2) PNone
                    PNone PNone PNone PNone 1%nat 4%nat H41)).
    reflexivity.
  - apply (proj2 (other_entries_untouched MockRt.rt self (PInt 1) (PStr "radio") PNone
                    PNone PNone PNone PNone PNone 1%nat 0%nat H01)).
    reflexivity.
Defined.
